(** * ConfigHM2: the git dependency visualizer (visualizer.py)

    A shallow embedding of [src/visualizer.py] and the properties of its
    four functions: [get_git_commits], [get_commit_diff],
    [generate_mermaid_graph] and [generate_png_from_mermaid].

    Conventions of the embedding.
    - A Python [str] is a list of Unicode code points ([pystr]); the
      literals of the source that are not ASCII are written out as code
      points, with the text in a comment.
    - The built-ins the source calls ([str.splitlines], [str.strip],
      [str.split], [str.join], [str.replace], [os.path.dirname]) are
      modelled after CPython 3; [os.path] is [posixpath].
    - A Python [set] is a [gset]; the order in which [list(s)] enumerates it
      is left open (class [SetIteration]).
    - The [dict] of [generate_mermaid_graph] keeps insertion order: it is an
      association list whose update keeps the position of an existing key.
    - Effects (printing, exceptions, the scratch file, the external
      programs) are threaded through the monad [py]. *)

From Stdlib Require Import ZArith NArith List String Ascii Lia.
From stdpp Require Import base option list gmap sets.

Import ListNotations.
Local Open Scope N_scope.
Local Open Scope list_scope.

(** ** Python strings *)

Module PyStr.

Abbreviation char := N.
Abbreviation pystr := (list N).

(** An ASCII literal of the source as a Python string. *)
Definition str (x : string) : pystr :=
map N_of_ascii (list_ascii_of_string x).

Definition LF : char := 10.
Definition CR : char := 13.
Definition SLASH : char := 47.
Definition DQUOTE : char := 34.
Definition SQUOTE : char := 39.
Definition BACKSLASH : char := 92.

(** [str.isspace] on one character: the code points CPython classifies as
  whitespace (bidirectional type WS, B or S, or category Zs). *)
Definition isspace (c : char) : bool :=
((9 <=? c) && (c <=? 13)) || ((28 <=? c) && (c <=? 32))
|| (c =? 133) || (c =? 160) || (c =? 5760)
|| ((8192 <=? c) && (c <=? 8202))
|| (c =? 8232) || (c =? 8233) || (c =? 8239) || (c =? 8287)
|| (c =? 12288).

(** The line boundaries of [str.splitlines]. *)
Definition islinebreak (c : char) : bool :=
((10 <=? c) && (c <=? 13)) || ((28 <=? c) && (c <=? 30))
|| (c =? 133) || (c =? 8232) || (c =? 8233).

(** [s.splitlines()]: the lines of [s] without their line breaks; CR LF is
  one break, and a break at the very end opens no further line. *)
Fixpoint splitlines (s : pystr) : list pystr :=
match s with
| [] => []
| c :: s' =>
    if islinebreak c then
      [] :: match s' with
            | d :: s'' =>
                if (c =? CR) && (d =? LF) then splitlines s''
                else splitlines s'
            | [] => []
            end
    else
      match splitlines s' with
      | [] => [[c]]
      | l :: ls => (c :: l) :: ls
      end
end.

(** [s.lstrip()], [s.rstrip()] and [s.strip()], without argument. *)
Fixpoint lstrip (s : pystr) : pystr :=
match s with
| [] => []
| c :: s' => if isspace c then lstrip s' else s
end.

Definition rstrip (s : pystr) : pystr := rev (lstrip (rev s)).

Definition strip (s : pystr) : pystr := rstrip (lstrip s).

(** [s.rstrip(chars)] for a one-character [chars]. *)
Fixpoint lstrip_char (x : char) (s : pystr) : pystr :=
match s with
| [] => []
| c :: s' => if c =? x then lstrip_char x s' else s
end.

Definition rstrip_char (x : char) (s : pystr) : pystr :=
rev (lstrip_char x (rev s)).

(** [s.split()], without argument: the maximal runs of characters that are
  not whitespace. *)
Fixpoint split (s : pystr) : list pystr :=
match s with
| [] => []
| c :: s' =>
    if isspace c then split s'
    else
      match s' with
      | [] => [[c]]
      | d :: _ =>
          if isspace d then [c] :: split s'
          else
            match split s' with
            | w :: ws => (c :: w) :: ws
            | [] => [[c]]
            end
      end
end.

(** [sep.join(l)]. *)
Fixpoint join (sep : pystr) (l : list pystr) : pystr :=
match l with
| [] => []
| [x] => x
| x :: l' => x ++ sep ++ join sep l'
end.

(** [s.replace(old, new)] for a one-character [old]. *)
Definition replace (old : char) (new : pystr) (s : pystr) : pystr :=
flat_map (fun c => if c =? old then new else [c]) s.

(** [s.rfind(x)] for a one-character [x]: the highest index, or -1. *)
Fixpoint rfind_from (i : Z) (best : Z) (x : char) (s : pystr) : Z :=
match s with
| [] => best
| c :: s' => rfind_from (i + 1)%Z (if c =? x then i else best) x s'
end.

Definition rfind (x : char) (s : pystr) : Z := rfind_from 0%Z (-1)%Z x s.

(** [posixpath.dirname(p)]:
<<
  i = p.rfind('/') + 1
  head = p[:i]
  if head and head != '/' * len(head):
      head = head.rstrip('/')
  return head
>> *)
Definition dirname (p : pystr) : pystr :=
let i := (rfind SLASH p + 1)%Z in
let head := take (Z.to_nat i) p in
if negb (bool_decide (head = []))
   && negb (bool_decide (head = repeat SLASH (length head)))
then rstrip_char SLASH head
else head.



End PyStr.

Import PyStr.

(** ** Effects: standard output, the file system, exceptions *)

(** The exceptions that occur; each carries [str(e)]. [CalledProcessError]
    is what [subprocess.run(..., check=True)] raises on a non-zero exit
    status; [OSError] stands for what it raises when the program cannot be
    started at all ([FileNotFoundError], [NotADirectoryError],
    [PermissionError]). *)
Inductive exn : Type :=
  | CalledProcessError (msg : pystr)
  | OSError (msg : pystr)
  | IndexError (msg : pystr).

Inductive outcome (A : Type) : Type :=
  | Return (a : A)
  | Raise (e : exn).
Arguments Return {A} a.
Arguments Raise {A} e.

(** The part of the process state the program acts on: the lines printed
    so far, and the regular files of the working directory by name. *)
Record state : Type := mkState {
  stdout : list pystr;
  fs : gmap pystr pystr
}.

Definition py (A : Type) : Type := state -> outcome A * state.

Definition ret {A} (a : A) : py A := fun st => (Return a, st).

Definition raise {A} (e : exn) : py A := fun st => (Raise e, st).

Definition bind {A B} (m : py A) (k : A -> py B) : py B :=
  fun st =>
    match m st with
    | (Return a, st') => k a st'
    | (Raise e, st') => (Raise e, st')
    end.

Notation "'let*' x := m 'in' k" := (bind m (fun x => k))
  (at level 10, x binder, m at level 100, k at level 200).

(** [try: body except <the exceptions h accepts> as e: h e]. An exception
    of the body for which [h] has no clause goes on to the caller. *)
Definition try_except {A} (body : py A) (h : exn -> option (py A)) : py A :=
  fun st =>
    match body st with
    | (Return a, st') => (Return a, st')
    | (Raise e, st') =>
        match h e with
        | Some handler => handler st'
        | None => (Raise e, st')
        end
    end.

(** [try: body finally: cleanup]. The cleanup runs on every way out of the
    body; an exception of the cleanup replaces the body's. *)
Definition try_finally {A} (body : py A) (cleanup : py unit) : py A :=
  fun st =>
    match body st with
    | (r, st') =>
        match cleanup st' with
        | (Return _, st'') => (r, st'')
        | (Raise e, st'') => (Raise e, st'')
        end
    end.

(** [print(line)]. *)
Definition print (line : pystr) : py unit :=
  fun st => (Return tt, mkState (stdout st ++ [line]) (fs st)).

(** [l[i]] on a list. *)
Definition getitem {A} (l : list A) (i : nat) : py A :=
  match l !! i with
  | Some x => ret x
  | None => raise (IndexError (str "list index out of range"))
  end.

(** [with open(path, "w", encoding='utf-8') as f: f.write(text)]. *)
Definition write_file (path text : pystr) : py unit :=
  fun st => (Return tt, mkState (stdout st) (<[path := text]> (fs st))).

(** [os.path.exists(path)]. *)
Definition os_path_exists (path : pystr) : py bool :=
  fun st => (Return (bool_decide (is_Some (fs st !! path))), st).

(** [os.remove(path)]. *)
Definition os_remove (path : pystr) : py unit :=
  fun st =>
    match fs st !! path with
    | Some _ => (Return tt, mkState (stdout st) (delete path (fs st)))
    | None => (Raise (OSError (str "No such file or directory")), st)
    end.

(** ** External programs *)

(** How a [subprocess.run(..., check=True)] ends. *)
Inductive completion : Type :=
  | Completed (out : pystr)     (* exit status 0; [out] is the captured stdout *)
  | Failed (msg : pystr)        (* non-zero exit status: CalledProcessError *)
  | NotStarted (msg : pystr).   (* the program could not be started: OSError *)

Definition completed (c : completion) : py pystr :=
  match c with
  | Completed out => ret out
  | Failed msg => raise (CalledProcessError msg)
  | NotStarted msg => raise (OSError msg)
  end.

(** The order in which [list(s)] enumerates a set: some enumeration of its
    elements, each once. *)
Class SetIteration : Type := {
  list_of_set : gset pystr -> list pystr;
  list_of_set_perm : forall X, list_of_set X ≡ₚ elements X
}.

#[export] Instance elements_iteration : SetIteration :=
  {| list_of_set := elements; list_of_set_perm := fun X => reflexivity _ |}.

(** Messages of the source. *)

(* "Ошибка при получении коммитов: " *)
Definition MSG_COMMITS : pystr :=
  [1054; 1096; 1080; 1073; 1082; 1072; 32; 1087; 1088; 1080; 32; 1087; 1086;
   1083; 1091; 1095; 1077; 1085; 1080; 1080; 32; 1082; 1086; 1084; 1084; 1080;
   1090; 1086; 1074; 58; 32].

(* "Ошибка при получении изменений для коммита " *)
Definition MSG_DIFF : pystr :=
  [1054; 1096; 1080; 1073; 1082; 1072; 32; 1087; 1088; 1080; 32; 1087; 1086;
   1083; 1091; 1095; 1077; 1085; 1080; 1080; 32; 1080; 1079; 1084; 1077; 1085;
   1077; 1085; 1080; 1081; 32; 1076; 1083; 1103; 32; 1082; 1086; 1084; 1084;
   1080; 1090; 1072; 32].

(* "Ошибка при создании PNG: " *)
Definition MSG_PNG : pystr :=
  [1054; 1096; 1080; 1073; 1082; 1072; 32; 1087; 1088; 1080; 32; 1089; 1086;
   1079; 1076; 1072; 1085; 1080; 1080; 32; 80; 78; 71; 58; 32].

(* "Папки:" *)
Definition FOLDERS_TITLE : pystr := [1055; 1072; 1087; 1082; 1080; 58].

(* "Файлы:" *)
Definition FILES_TITLE : pystr := [1060; 1072; 1081; 1083; 1099; 58].

(* "Нет изменений" *)
Definition NO_CHANGES : pystr :=
  [1053; 1077; 1090; 32; 1080; 1079; 1084; 1077; 1085; 1077; 1085; 1080; 1081].

Definition BR : pystr := str "<br>".

(** ** The program *)

Definition TEMP_MMD : pystr := str "temp.mmd".

(** [commit_data[commit_hash]]: the value stored for a commit. *)
Record commit_info : Type := mkInfo {
  parents : list pystr;
  folders : list pystr;
  files : list pystr
}.

(** [d[k] = v] on a [dict]: a key already present keeps its position and
    takes the new value, a new key goes to the end. *)
Fixpoint dict_set {V} (k : pystr) (v : V) (d : list (pystr * V)) : list (pystr * V) :=
  match d with
  | [] => [(k, v)]
  | (k', v') :: d' =>
      if bool_decide (k' = k) then (k', v) :: d'
      else (k', v') :: dict_set k v d'
  end.

(** The command lines of lines 11 and 33. *)
Definition git_log_args : list pystr :=
  [str "git"; str "log"; str "--pretty=format:%h %p"].

Definition git_diff_tree_args (commit_hash : pystr) : list pystr :=
  [str "git"; str "diff-tree"; str "--no-commit-id"; str "--name-only";
   str "-r"; commit_hash].

Section Visualizer.

Context `{SetIteration}.

(** [subprocess.run(args, cwd=cwd, text=True, capture_output=True,
    check=True)] for the two git queries: what they answer is a function
    of the arguments and of the directory. *)
Variable git : list pystr -> pystr -> completion.

(** [subprocess.run(args, check=True)] for the renderer, which acts on
    the files of the working directory. *)
Variable renderer : list pystr -> gmap pystr pystr -> completion * gmap pystr pystr.

Definition subprocess_run_git (args : list pystr) (cwd : pystr) : py pystr :=
  completed (git args cwd).

Definition subprocess_run_renderer (args : list pystr) : py pystr :=
  fun st =>
    let '(c, fs') := renderer args (fs st) in
    completed c (mkState (stdout st) fs').

(** The loop of [get_git_commits] (lines 18-22). *)
Fixpoint get_git_commits_loop (lines : list pystr)
    (commits : list (pystr * list pystr)) : py (list (pystr * list pystr)) :=
  match lines with
  | [] => ret commits
  | line :: lines' =>
      let parts := split (strip line) in
      let* commit_hash := getitem parts 0 in
      let parent_hashes :=
        if (1 <? length parts)%nat then drop 1 parts else [] in
      get_git_commits_loop lines' (commits ++ [(commit_hash, parent_hashes)])
  end.

Definition get_git_commits (repo_path : pystr) : py (list (pystr * list pystr)) :=
  try_except
    (let* result_stdout :=
       subprocess_run_git git_log_args repo_path in
     get_git_commits_loop (splitlines result_stdout) [])
    (fun e =>
       match e with
       | CalledProcessError msg =>
           Some (let* _ := print (MSG_COMMITS ++ msg) in ret [])
       | _ => None
       end).

(** The loop of [get_commit_diff] (lines 41-47) on the two sets. *)
Fixpoint get_commit_diff_loop (changed_files : list pystr)
    (folders files : gset pystr) : gset pystr * gset pystr :=
  match changed_files with
  | [] => (folders, files)
  | file :: rest =>
      let files := files ∪ {[file]} in
      let folder := dirname file in
      if negb (bool_decide (folder = []))
      then get_commit_diff_loop rest (folders ∪ {[folder]}) files
      else get_commit_diff_loop rest folders files
  end.

Definition get_commit_diff (repo_path commit_hash : pystr)
    : py (list pystr * list pystr) :=
  try_except
    (let* result_stdout :=
       subprocess_run_git (git_diff_tree_args commit_hash) repo_path in
     let changed_files := splitlines (strip result_stdout) in
     let '(folders, files) := get_commit_diff_loop changed_files ∅ ∅ in
     ret (list_of_set folders, list_of_set files))
    (fun e =>
       match e with
       | CalledProcessError msg =>
           Some (let* _ := print (MSG_DIFF ++ commit_hash ++ str ": " ++ msg) in
                 ret ([], []))
       | _ => None
       end).

(** The first loop of [generate_mermaid_graph] (lines 60-66). *)
Fixpoint collect_commit_data (repo_path : pystr)
    (commits : list (pystr * list pystr))
    (commit_data : list (pystr * commit_info)) : py (list (pystr * commit_info)) :=
  match commits with
  | [] => ret commit_data
  | (commit_hash, parent_hashes) :: rest =>
      let* '(folders, files) := get_commit_diff repo_path commit_hash in
      collect_commit_data repo_path rest
        (dict_set commit_hash (mkInfo parent_hashes folders files) commit_data)
  end.

(** The label of a node (lines 70-80). *)
Definition commit_text (data : commit_info) : pystr :=
  let changed_items := [] in
  let changed_items :=
    match folders data with
    | [] => changed_items
    | _ :: _ => changed_items ++ [FOLDERS_TITLE ++ BR ++ join BR (folders data)]
    end in
  let changed_items :=
    match files data with
    | [] => changed_items
    | _ :: _ => changed_items ++ [FILES_TITLE ++ BR ++ join BR (files data)]
    end in
  let commit_text :=
    match changed_items with
    | [] => NO_CHANGES
    | _ :: _ => join BR changed_items
    end in
  replace SQUOTE [BACKSLASH; SQUOTE]
    (replace DQUOTE [BACKSLASH; DQUOTE] commit_text).

(** Line 82: the node declaration of a commit. *)
Definition node_line (commit_hash : pystr) (data : commit_info) : pystr :=
  str "  " ++ commit_hash ++ str "[" ++ [DQUOTE] ++ commit_hash ++ BR
  ++ commit_text data ++ [DQUOTE] ++ str "]" ++ [LF].

(** Line 85: an edge from a parent to its child. *)
Definition edge_line (parent_hash commit_hash : pystr) : pystr :=
  str "  " ++ parent_hash ++ str " --> " ++ commit_hash ++ [LF].

(** The second loop of [generate_mermaid_graph] (lines 68-85). *)
Fixpoint emit_commits (items : list (pystr * commit_info))
    (mermaid_graph : pystr) : pystr :=
  match items with
  | [] => mermaid_graph
  | (commit_hash, data) :: rest =>
      let mermaid_graph := mermaid_graph ++ node_line commit_hash data in
      let mermaid_graph :=
        fold_left
          (fun mermaid_graph parent_hash =>
             mermaid_graph ++ edge_line parent_hash commit_hash)
          (parents data) mermaid_graph in
      emit_commits rest mermaid_graph
  end.

Definition generate_mermaid_graph (commits : list (pystr * list pystr))
    (repo_path : pystr) : py pystr :=
  let mermaid_graph := str "graph TD" ++ [LF] in
  let* commit_data := collect_commit_data repo_path commits [] in
  ret (emit_commits commit_data mermaid_graph).

(** The [finally] block of [generate_png_from_mermaid] (lines 104-105). *)
Definition remove_scratch_file : py unit :=
  let* present := os_path_exists TEMP_MMD in
  if present then os_remove TEMP_MMD else ret tt.

Definition generate_png_from_mermaid
    (mermaid_graph output_path visualizer_path : pystr) : py unit :=
  try_finally
    (try_except
       (let* _ := write_file TEMP_MMD mermaid_graph in
        let* _ :=
          subprocess_run_renderer
            [visualizer_path; str "-i"; TEMP_MMD; str "-o"; output_path] in
        ret tt)
       (fun e =>
          match e with
          | CalledProcessError msg => Some (print (MSG_PNG ++ msg))
          | _ => None
          end))
    remove_scratch_file.

End Visualizer.

(** *** main *)

(* "Не удалось получить коммиты из репозитория." *)
Definition MSG_NO_COMMITS : pystr :=
  [1053; 1077; 32; 1091; 1076; 1072; 1083; 1086; 1089; 1100; 32; 1087; 1086;
   1083; 1091; 1095; 1080; 1090; 1100; 32; 1082; 1086; 1084; 1084; 1080; 1090;
   1099; 32; 1080; 1079; 32; 1088; 1077; 1087; 1086; 1079; 1080; 1090; 1086;
   1088; 1080; 1103; 46].

(* "Визуализация зависимостей успешно завершена." *)
Definition MSG_DONE : pystr :=
  [1042; 1080; 1079; 1091; 1072; 1083; 1080; 1079; 1072; 1094; 1080; 1103; 32;
   1079; 1072; 1074; 1080; 1089; 1080; 1084; 1086; 1089; 1090; 1077; 1081; 32;
   1091; 1089; 1087; 1077; 1096; 1085; 1086; 32; 1079; 1072; 1074; 1077; 1088;
   1096; 1077; 1085; 1072; 46].

Section Main.

Context `{SetIteration}.
Variable git : list pystr -> pystr -> completion.
Variable renderer : list pystr -> gmap pystr pystr -> completion * gmap pystr pystr.

(** [main] (lines 108-127) from the parsed arguments on: [args_repo],
    [args_visualizer] and [args_output] are [args.repo], [args.visualizer]
    and [args.output]; the parsing by [argparse] is not part of the model. *)
Definition main (args_repo args_visualizer args_output : pystr) : py unit :=
  let* commits := get_git_commits git args_repo in
  match commits with
  | [] =>
      let* _ := print MSG_NO_COMMITS in
      ret tt
  | _ :: _ =>
      let* mermaid_graph := generate_mermaid_graph git commits args_repo in
      let* _ :=
        generate_png_from_mermaid renderer mermaid_graph args_output
          args_visualizer in
      print MSG_DONE
  end.

End Main.

(** ** Definitions the statements use *)

Definition st0 : state := mkState [] ∅.

(** A git that answers every query in the same way. *)
Definition git_const (c : completion) : list pystr -> pystr -> completion :=
  fun _ _ => c.

(** The pair of a log line, in the words of the specification: the first
    whitespace-separated token and the remaining tokens. *)
Definition commit_of_line (line : pystr) : pystr * list pystr :=
  match split line with
  | commit_id :: parent_ids => (commit_id, parent_ids)
  | [] => ([], [])
  end.

(** The lines of a graph document: the declaration of a node, with the
    data its label is made of, or an edge from a parent to a child. *)
Inductive graph_line : Type :=
  | NodeDecl (commit_hash : pystr) (data : commit_info)
  | EdgeDecl (parent_hash commit_hash : pystr).

Definition render (l : graph_line) : pystr :=
  match l with
  | NodeDecl commit_hash data => node_line commit_hash data
  | EdgeDecl parent_hash commit_hash => edge_line parent_hash commit_hash
  end.

(** The lines of one commit: its node, then the edges from its parents. *)
Definition lines_of_commit (item : pystr * commit_info) : list graph_line :=
  NodeDecl item.1 item.2 :: map (fun p => EdgeDecl p item.1) (parents item.2).

(** The ids of the declared nodes, and the declared (parent, child) edges,
    in the order of the lines. *)
Definition declared_nodes (lines : list graph_line) : list pystr :=
  omap (fun l => match l with NodeDecl c _ => Some c | EdgeDecl _ _ => None end) lines.


(** The distinct elements of a list, in the order in which they first occur. *)
Fixpoint first_occurrences (l : list pystr) : list pystr :=
  match l with
  | [] => []
  | x :: l' => x :: filter (fun y => y <> x) (first_occurrences l')
  end.

(** The parent list of the last entry of [commits] with commit id [c]. *)
Definition last_parents (c : pystr) (commits : list (pystr * list pystr)) : list pystr :=
  default [] (snd <$> last (filter (fun e => e.1 = c) commits)).


(** No diff query of [generate_mermaid_graph] on [commits] fails to start. *)
Definition diff_starts (git : list pystr -> pystr -> completion)
    (repo_path : pystr) (commits : list (pystr * list pystr)) : bool :=
  forallb (fun e => match git (git_diff_tree_args e.1) repo_path with
                    | NotStarted _ => false
                    | _ => true
                    end) commits.

(** What [get_commit_diff] returns when the query starts. *)
Definition diff_result `{SetIteration} (git : list pystr -> pystr -> completion)
    (repo_path commit_hash : pystr) : list pystr * list pystr :=
  match git (git_diff_tree_args commit_hash) repo_path with
  | Completed out =>
      let sets := get_commit_diff_loop (splitlines (strip out)) ∅ ∅ in
      (list_of_set sets.1, list_of_set sets.2)
  | _ => ([], [])
  end.

(** The table [commit_data] after the first loop: one entry per distinct
    commit id, in the order of first occurrence, with the parents of the
    last entry of that id. *)
Definition commit_table `{SetIteration} (git : list pystr -> pystr -> completion)
    (repo_path : pystr) (commits : list (pystr * list pystr)) : list (pystr * commit_info) :=
  map (fun c => (c, mkInfo (last_parents c commits)
                      (diff_result git repo_path c).1
                      (diff_result git repo_path c).2))
      (first_occurrences (map fst commits)).

(** One step of the first loop, on the table. *)
Definition store_commit `{SetIteration} (git : list pystr -> pystr -> completion)
    (repo_path : pystr) (commit_data : list (pystr * commit_info))
    (e : pystr * list pystr) : list (pystr * commit_info) :=
  dict_set e.1 (mkInfo e.2 (diff_result git repo_path e.1).1
                  (diff_result git repo_path e.1).2) commit_data.

(** The graph document as lines. *)
Definition mermaid_lines `{SetIteration} (git : list pystr -> pystr -> completion)
    (repo_path : pystr) (commits : list (pystr * list pystr)) : list graph_line :=
  flat_map lines_of_commit (commit_table git repo_path commits).


(** What [generate_mermaid_graph] prints: the message of [get_commit_diff]
    for each entry whose diff query ends with a non-zero exit status. *)
Definition diff_messages (git : list pystr -> pystr -> completion)
    (repo_path : pystr) (commits : list (pystr * list pystr)) : list pystr :=
  flat_map (fun e => match git (git_diff_tree_args e.1) repo_path with
                     | Failed msg => [MSG_DIFF ++ e.1 ++ str ": " ++ msg]
                     | _ => []
                     end) commits.

(** A string without any line boundary of [str.splitlines]. *)
Definition nobreak (s : pystr) : bool :=
  forallb (fun c => negb (islinebreak c)) s.

(** A string without whitespace. *)
Definition nospace (s : pystr) : bool :=
  forallb (fun c => negb (isspace c)) s.

(** The text of a line of the document, without the line feed that ends it. *)
Definition line_text (l : graph_line) : pystr :=
  match l with
  | NodeDecl commit_hash data =>
      str "  " ++ commit_hash ++ str "[" ++ [DQUOTE] ++ commit_hash ++ BR
      ++ commit_text data ++ [DQUOTE] ++ str "]"
  | EdgeDecl parent_hash commit_hash =>
      str "  " ++ parent_hash ++ str " --> " ++ commit_hash
  end.

(** Every occurrence of the character [q] in [s] comes directly after a
    backslash; [prev] is the character before [s]. *)
Fixpoint escaped (q : char) (prev : char) (s : pystr) : bool :=
  match s with
  | [] => true
  | c :: s' => (negb (c =? q) || (prev =? BACKSLASH)) && escaped q c s'
  end.

(** The run of [generate_png_from_mermaid] on the files [files0]: how the
    renderer ends and the files it leaves. *)
Definition renderer_run
    (renderer : list pystr -> gmap pystr pystr -> completion * gmap pystr pystr)
    (mermaid_graph output_path visualizer_path : pystr)
    (files0 : gmap pystr pystr) : completion * gmap pystr pystr :=
  renderer [visualizer_path; str "-i"; TEMP_MMD; str "-o"; output_path]
    (<[TEMP_MMD := mermaid_graph]> files0).

(** ** Facts about the string built-ins *)

Example splitlines_ex :
  splitlines (str "a" ++ [CR; LF] ++ str "b" ++ [LF; LF] ++ str "c")
  = [str "a"; str "b"; []; str "c"].
Proof. reflexivity. Qed.

Example splitlines_ex2 : splitlines (str "a" ++ [LF; CR]) = [str "a"; []].
Proof. reflexivity. Qed.

Example split_ex : split (str "  abc123   def456 x ") = [str "abc123"; str "def456"; str "x"].
Proof. reflexivity. Qed.

Example dirname_ex :
  map dirname [str "a/b"; str "a"; str "/a"; str "//a"; str "a//b"; []; str "a/"; str "///a//b"]
  = [str "a"; []; str "/"; str "//"; str "a"; []; str "a"; str "///a"].
Proof. vm_compute. reflexivity. Qed.


Section StringFacts.

Lemma split_lstrip (s : pystr) : split (lstrip s) = split s.
Proof.
  induction s as [|c s IH]; [done|].
  cbn [lstrip split]. destruct (isspace c) eqn:Hc; [done|].
  cbn [split]. by rewrite Hc.
Qed.

Lemma split_app_space (s : pystr) (c : char) :
  isspace c = true -> split (s ++ [c]) = split s.
Proof.
  intros Hc. induction s as [|a s IH].
  - cbn. by rewrite Hc.
  - change ((a :: s) ++ [c]) with (a :: (s ++ [c])).
    cbn [split]. destruct (isspace a); [done|].
    destruct s as [|d s]; cbn [app].
    + rewrite Hc. cbn. by rewrite Hc.
    + change (d :: s ++ [c]) with ((d :: s) ++ [c]).
      rewrite IH. done.
Qed.

Lemma split_app_spaces (s ws : pystr) :
  forallb isspace ws = true -> split (s ++ ws) = split s.
Proof.
  induction ws as [|c ws IH] using rev_ind; intros Hws.
  - by rewrite app_nil_r.
  - rewrite forallb_app in Hws. cbn in Hws.
    apply andb_true_iff in Hws as [Hws Hc].
    rewrite andb_true_r in Hc.
    rewrite app_assoc, split_app_space by done. auto.
Qed.

Lemma lstrip_decompose (s : pystr) :
  exists ws, s = ws ++ lstrip s /\ forallb isspace ws = true.
Proof.
  induction s as [|c s (ws & Hs & Hws)].
  - by exists [].
  - cbn [lstrip]. destruct (isspace c) eqn:Hc.
    + exists (c :: ws). cbn. rewrite Hc, Hws. split; [by f_equal|done].
    + by exists [].
Qed.

Lemma rstrip_decompose (s : pystr) :
  exists ws, s = rstrip s ++ ws /\ forallb isspace ws = true.
Proof.
  destruct (lstrip_decompose (rev s)) as (ws & Hs & Hws).
  exists (rev ws). split.
  - unfold rstrip. rewrite <- rev_app_distr, <- Hs. by rewrite rev_involutive.
  - rewrite forallb_forall in *. intros x Hx. apply Hws. by apply in_rev.
Qed.

Lemma split_rstrip (s : pystr) : split (rstrip s) = split s.
Proof.
  destruct (rstrip_decompose s) as (ws & Hs & Hws).
  rewrite Hs at 2. by rewrite split_app_spaces.
Qed.

(** [strip] before [split] changes nothing. *)
Lemma split_strip (s : pystr) : split (strip s) = split s.
Proof. unfold strip. by rewrite split_rstrip, split_lstrip. Qed.

(** A line has no token exactly when it is empty or all whitespace. *)
Lemma split_nil_iff (s : pystr) :
  split s = [] <-> forallb isspace s = true.
Proof.
  induction s as [|c s IH]; [done|].
  cbn [split forallb]. destruct (isspace c) eqn:Hc; [done|].
  cbn. split; [|done].
  destruct s as [|d s]; [done|].
  destruct (isspace d); [done|]. by destruct (split (d :: s)).
Qed.

(** Every token is non-empty and free of whitespace. *)
Lemma split_tokens (s : pystr) (w : pystr) :
  w ∈ split s -> w <> [] /\ forallb isspace w = false /\ Forall (fun c => isspace c = false) w.
Proof.
  revert w. induction s as [|c s IH]; intros w; [by intros ?%elem_of_nil|].
  cbn [split]. destruct (isspace c) eqn:Hc; [by apply IH|].
  destruct s as [|d s].
  { intros ->%list_elem_of_singleton. cbn. rewrite Hc. by repeat constructor. }
  destruct (isspace d) eqn:Hd.
  { intros [->|Hw]%elem_of_cons; [|by apply IH].
    cbn. rewrite Hc. by repeat constructor. }
  destruct (split (d :: s)) as [|w0 ws] eqn:Hsp.
  { intros ->%list_elem_of_singleton. cbn. rewrite Hc. by repeat constructor. }
  intros [->|Hw]%elem_of_cons.
  - destruct (IH w0) as (_ & _ & Hall); [by left|].
    cbn. rewrite Hc. split; [done|]. split; [done|]. by constructor.
  - apply IH. by right.
Qed.

(** The tokens, put together, are the line without its whitespace. *)
Lemma concat_split (s : pystr) :
  concat (split s) = List.filter (fun c => negb (isspace c)) s.
Proof.
  induction s as [|c s IH]; [done|].
  cbn [split List.filter]. destruct (isspace c) eqn:Hc; cbn [negb]; [done|].
  rewrite <- IH. destruct s as [|d s]; [done|].
  destruct (isspace d) eqn:Hd; [done|].
  destruct (split (d :: s)) as [|w0 ws] eqn:Hsp; [|done].
  apply split_nil_iff in Hsp. cbn in Hsp. by rewrite Hd in Hsp.
Qed.

End StringFacts.

(** ** The monad *)

Section MonadFacts.

Lemma bind_ret_l {A B} (a : A) (k : A -> py B) (st : state) :
  bind (ret a) k st = k a st.
Proof. done. Qed.

Lemma bind_Return {A B} (m : py A) (k : A -> py B) st a st' :
  m st = (Return a, st') -> bind m k st = k a st'.
Proof. unfold bind. by intros ->. Qed.

Lemma bind_Raise {A B} (m : py A) (k : A -> py B) st e st' :
  m st = (Raise e, st') -> bind m k st = (Raise e, st').
Proof. unfold bind. by intros ->. Qed.

End MonadFacts.

(** ** get_git_commits *)

Section GetGitCommits.

Variable git : list pystr -> pystr -> completion.

(** On lines that all carry a token the loop appends one pair per line. *)
Lemma get_git_commits_loop_ok lines commits st :
  Forall (fun line => split line <> []) lines ->
  get_git_commits_loop lines commits st
  = (Return (commits ++ map commit_of_line lines), st).
Proof.
  intros Hall. revert commits.
  induction Hall as [|line lines Hline _ IH]; intros commits.
  - cbn. by rewrite app_nil_r.
  - cbn [get_git_commits_loop map]. rewrite split_strip.
    destruct (split line) as [|commit_id parent_ids] eqn:Hsp; [done|].
    unfold getitem. cbn [lookup list_lookup]. rewrite bind_ret_l, IH.
    rewrite <- app_assoc. cbn [app]. do 4 f_equal.
    unfold commit_of_line. rewrite Hsp. by destruct parent_ids.
Qed.

(** A line without token makes the loop raise. *)
Lemma get_git_commits_loop_blank lines commits st :
  Exists (fun line => forallb isspace line = true) lines ->
  get_git_commits_loop lines commits st
  = (Raise (IndexError (str "list index out of range")), st).
Proof.
  revert commits. induction lines as [|line lines IH]; intros commits Hex.
  - by apply Exists_nil in Hex.
  - cbn [get_git_commits_loop]. rewrite split_strip.
    destruct (split line) as [|commit_id parent_ids] eqn:Hsp; [done|].
    unfold getitem. cbn [lookup list_lookup]. rewrite bind_ret_l.
    apply IH. apply Exists_cons in Hex as [Hline|Hex]; [|done].
    apply split_nil_iff in Hline. congruence.
Qed.

Lemma get_git_commits_completed repo_path out st :
  git git_log_args repo_path = Completed out ->
  get_git_commits git repo_path st
  = try_except (get_git_commits_loop (splitlines out) [])
      (fun e => match e with
                | CalledProcessError msg =>
                    Some (let* _ := print (MSG_COMMITS ++ msg) in ret [])
                | _ => None
                end) st.
Proof.
  intros Hgit. unfold get_git_commits, try_except, bind, subprocess_run_git.
  rewrite Hgit. done.
Qed.

End GetGitCommits.

(** C2 (amended). When the log command succeeds and every line of its
    output holds at least one character that is not whitespace,
    [get_git_commits] returns one pair per line, in the order of the lines:
    the first whitespace-separated token of the line and the list of the
    remaining tokens; it prints nothing. *)
Theorem get_git_commits_one_pair_per_line
    (git : list pystr -> pystr -> completion) (repo_path out : pystr) (st : state) :
  git git_log_args repo_path = Completed out ->
  forallb (fun line => negb (forallb isspace line)) (splitlines out) = true ->
  get_git_commits git repo_path st
  = (Return (map commit_of_line (splitlines out)), st).
Proof.
  intros Hgit Hlines.
  rewrite (get_git_commits_completed git repo_path out st Hgit).
  unfold try_except. rewrite get_git_commits_loop_ok; [done|].
  apply Forall_forall. intros line Hin Hsplit.
  rewrite forallb_forall in Hlines.
  apply list_elem_of_In in Hin. specialize (Hlines line Hin).
  apply split_nil_iff in Hsplit. by rewrite Hsplit in Hlines.
Qed.

(** The example of the specification: the log output
    "abc123 def456\ndef456\n". *)
Lemma get_git_commits_one_pair_per_line_witness :
  get_git_commits
    (git_const (Completed (str "abc123 def456" ++ [LF] ++ str "def456" ++ [LF])))
    (str "/path/to/repo") st0
  = (Return [(str "abc123", [str "def456"]); (str "def456", [])], st0).
Proof.
  exact (get_git_commits_one_pair_per_line
           (git_const (Completed (str "abc123 def456" ++ [LF] ++ str "def456" ++ [LF])))
           (str "/path/to/repo") _ st0 eq_refl eq_refl).
Defined.

(** C2 as stated fails: on the successful log output
    "abc123 def456\n\ndef456\n" no list of pairs is returned. *)
Lemma get_git_commits_empty_line_counterexample :
  let out := str "abc123 def456" ++ [LF; LF] ++ str "def456" ++ [LF] in
  splitlines out = [str "abc123 def456"; []; str "def456"]
  /\ forall commits st,
       get_git_commits (git_const (Completed out)) (str "/path/to/repo") st0
       <> (Return commits, st).
Proof. split; [done|]. intros commits st. vm_compute. discriminate. Qed.

(** C9. Whenever the log command succeeds with an output one of whose lines
    is empty or whitespace only, [get_git_commits] raises [IndexError],
    which its [except] clause does not catch. *)
Theorem get_git_commits_blank_line_IndexError
    (git : list pystr -> pystr -> completion) (repo_path out : pystr) (st : state) :
  git git_log_args repo_path = Completed out ->
  existsb (forallb isspace) (splitlines out) = true ->
  get_git_commits git repo_path st
  = (Raise (IndexError (str "list index out of range")), st).
Proof.
  intros Hgit Hblank.
  rewrite (get_git_commits_completed git repo_path out st Hgit).
  unfold try_except. rewrite get_git_commits_loop_blank; [done|].
  apply existsb_exists in Hblank as (line & Hin & Hline).
  apply Exists_exists. exists line. by rewrite list_elem_of_In.
Qed.

(** The output "abc123\n \nabc122\n". *)
Lemma get_git_commits_blank_line_IndexError_witness :
  get_git_commits
    (git_const (Completed (str "abc123" ++ [LF] ++ str " " ++ [LF] ++ str "abc122" ++ [LF])))
    (str "/path/to/repo") st0
  = (Raise (IndexError (str "list index out of range")), st0).
Proof.
  exact (get_git_commits_blank_line_IndexError
           (git_const (Completed (str "abc123" ++ [LF] ++ str " " ++ [LF] ++ str "abc122" ++ [LF])))
           (str "/path/to/repo") _ st0 eq_refl eq_refl).
Defined.

(** ** get_commit_diff *)

Section GetCommitDiffLoop.

Lemma get_commit_diff_loop_files changed folders files :
  (get_commit_diff_loop changed folders files).2 = files ∪ list_to_set changed.
Proof.
  revert folders files. induction changed as [|file rest IH]; intros folders files.
  - cbn. by rewrite (right_id_L ∅ (∪)).
  - cbn [get_commit_diff_loop list_to_set].
    destruct (negb _); rewrite IH; by rewrite (assoc_L (∪)).
Qed.

Lemma get_commit_diff_loop_folders changed folders files d :
  d ∈ (get_commit_diff_loop changed folders files).1
  <-> d ∈ folders \/ (d <> [] /\ exists file, file ∈ changed /\ d = dirname file).
Proof.
  revert folders files. induction changed as [|file rest IH]; intros folders files.
  - cbn. split; [by left|]. intros [?|(_ & f & Hf & _)]; [done|].
    by apply elem_of_nil in Hf.
  - cbn [get_commit_diff_loop]. case_bool_decide as Hdir; cbn [negb]; rewrite IH.
    + split.
      * intros [?|(Hd & f & Hf & ->)]; [by left|].
        right. split; [done|]. exists f. split; [by right|done].
      * intros [?|(Hd & f & [->|Hf]%elem_of_cons & ->)]; [by left|done|].
        right. eauto.
    + split.
      * intros [[?| ->%elem_of_singleton]%elem_of_union|(Hd & f & Hf & ->)].
        -- by left.
        -- right. split; [done|]. exists file. split; [by left|done].
        -- right. split; [done|]. exists f. split; [by right|done].
      * intros [?|(Hd & f & [->|Hf]%elem_of_cons & ->)].
        -- left. apply elem_of_union. by left.
        -- left. apply elem_of_union. right. by apply elem_of_singleton.
        -- right. eauto.
Qed.

End GetCommitDiffLoop.

Section GetCommitDiff.

Context `{SetIteration}.
Variable git : list pystr -> pystr -> completion.

Lemma list_of_set_NoDup (X : gset pystr) : NoDup (list_of_set X).
Proof. rewrite list_of_set_perm. apply NoDup_elements. Qed.

Lemma elem_of_list_of_set (X : gset pystr) (x : pystr) :
  x ∈ list_of_set X <-> x ∈ X.
Proof. rewrite list_of_set_perm. apply elem_of_elements. Qed.

Lemma get_commit_diff_completed repo_path commit_hash out st :
  git (git_diff_tree_args commit_hash) repo_path = Completed out ->
  get_commit_diff git repo_path commit_hash st
  = (Return
       (list_of_set (get_commit_diff_loop (splitlines (strip out)) ∅ ∅).1,
        list_of_set (get_commit_diff_loop (splitlines (strip out)) ∅ ∅).2), st).
Proof.
  intros Hgit. unfold get_commit_diff, try_except, bind, subprocess_run_git.
  rewrite Hgit. cbn. by destruct (get_commit_diff_loop _ _ _).
Qed.

Lemma get_commit_diff_failed repo_path commit_hash msg st :
  git (git_diff_tree_args commit_hash) repo_path = Failed msg ->
  get_commit_diff git repo_path commit_hash st
  = (Return ([], []),
     mkState (stdout st ++ [MSG_DIFF ++ commit_hash ++ str ": " ++ msg]) (fs st)).
Proof.
  intros Hgit. unfold get_commit_diff, try_except, bind, subprocess_run_git.
  by rewrite Hgit.
Qed.

Lemma get_commit_diff_not_started repo_path commit_hash msg st :
  git (git_diff_tree_args commit_hash) repo_path = NotStarted msg ->
  get_commit_diff git repo_path commit_hash st = (Raise (OSError msg), st).
Proof.
  intros Hgit. unfold get_commit_diff, try_except, bind, subprocess_run_git.
  by rewrite Hgit.
Qed.

(** What a successful diff returns, as sets. *)
Lemma get_commit_diff_value repo_path commit_hash out st :
  git (git_diff_tree_args commit_hash) repo_path = Completed out ->
  exists folders files,
    get_commit_diff git repo_path commit_hash st = (Return (folders, files), st)
    /\ NoDup folders /\ NoDup files
    /\ (forall file, file ∈ files <-> file ∈ splitlines (strip out))
    /\ (forall d, d ∈ folders
                  <-> d <> [] /\ exists file, file ∈ files /\ d = dirname file).
Proof.
  intros Hgit. eexists _, _. split; [by apply get_commit_diff_completed|].
  split; [apply list_of_set_NoDup|]. split; [apply list_of_set_NoDup|].
  assert (Hfiles : forall file,
    file ∈ list_of_set (get_commit_diff_loop (splitlines (strip out)) ∅ ∅).2
    <-> file ∈ splitlines (strip out)).
  { intros file. rewrite elem_of_list_of_set, get_commit_diff_loop_files.
    rewrite elem_of_union, elem_of_list_to_set.
    split; [by intros [?%not_elem_of_empty|?]|by right]. }
  split; [done|]. intros d.
  rewrite elem_of_list_of_set, get_commit_diff_loop_folders.
  split.
  - intros [?%not_elem_of_empty|(Hd & f & Hf & ->)]; [done|].
    split; [done|]. exists f. by rewrite Hfiles.
  - intros (Hd & f & Hf & ->). right. split; [done|]. exists f.
    by rewrite <- Hfiles.
Qed.

End GetCommitDiff.




(** C8. On every diff output, neither sequence that [get_commit_diff]
    returns has a duplicate; the file sequence holds the lines of the
    stripped output, and the directory sequence holds exactly the non-empty
    [os.path.dirname file] of the entries [file] of the file sequence. *)
Theorem get_commit_diff_sets `{SetIteration}
    (git : list pystr -> pystr -> completion)
    (repo_path commit_hash out : pystr) (st : state) :
  git (git_diff_tree_args commit_hash) repo_path = Completed out ->
  exists folders files,
    get_commit_diff git repo_path commit_hash st = (Return (folders, files), st)
    /\ NoDup folders /\ NoDup files
    /\ (forall d, d ∈ folders -> d <> [] /\ exists file, file ∈ files /\ d = dirname file)
    /\ (forall file, file ∈ files -> dirname file <> [] -> dirname file ∈ folders).
Proof.
  intros Hgit.
  destruct (get_commit_diff_value git repo_path commit_hash out st Hgit)
    as (folders & files & Hrun & Hnd1 & Hnd2 & Hfiles & Hfolders).
  exists folders, files. repeat split; try done.
  - by apply Hfolders.
  - by apply Hfolders.
  - intros file Hfile Hdir. apply Hfolders. eauto.
Qed.

Lemma get_commit_diff_sets_witness :
  exists folders files,
    get_commit_diff
      (git_const (Completed (str "a/x.py" ++ [LF] ++ str "a/y.py" ++ [LF] ++ str "README")))
      (str "/path/to/repo") (str "abc123") st0
    = (Return (folders, files), st0)
    /\ NoDup folders /\ NoDup files
    /\ (forall d, d ∈ folders -> d <> [] /\ exists file, file ∈ files /\ d = dirname file)
    /\ (forall file, file ∈ files -> dirname file <> [] -> dirname file ∈ folders).
Proof.
  exact (get_commit_diff_sets
           (git_const (Completed (str "a/x.py" ++ [LF] ++ str "a/y.py" ++ [LF] ++ str "README")))
           (str "/path/to/repo") (str "abc123") _ st0 eq_refl).
Defined.

(** C3. On the diff output "src/main.py\nsrc/utils/helper.py\n",
    [get_commit_diff] returns the directories src and src/utils and the
    files src/main.py and src/utils/helper.py, each once, in some order. *)
Theorem get_commit_diff_example `{SetIteration}
    (git : list pystr -> pystr -> completion)
    (repo_path commit_hash : pystr) (st : state) :
  git (git_diff_tree_args commit_hash) repo_path
  = Completed (str "src/main.py" ++ [LF] ++ str "src/utils/helper.py" ++ [LF]) ->
  exists folders files,
    get_commit_diff git repo_path commit_hash st = (Return (folders, files), st)
    /\ folders ≡ₚ [str "src"; str "src/utils"]
    /\ files ≡ₚ [str "src/main.py"; str "src/utils/helper.py"].
Proof.
  intros Hgit.
  destruct (get_commit_diff_value git repo_path commit_hash _ st Hgit)
    as (folders & files & Hrun & Hnd1 & Hnd2 & Hfiles & Hfolders).
  exists folders, files. split; [done|].
  assert (Hlines :
    splitlines (strip (str "src/main.py" ++ [LF] ++ str "src/utils/helper.py" ++ [LF]))
    = [str "src/main.py"; str "src/utils/helper.py"]) by (vm_compute; reflexivity).
  rewrite Hlines in Hfiles.
  split; (apply NoDup_Permutation;
          [done|by apply (bool_decide_unpack _); vm_compute|]).
  - intros d. rewrite Hfolders. split.
    + intros (Hd & file & Hfile%Hfiles & ->).
      apply elem_of_cons in Hfile as [->|Hfile]; [by left|].
      apply list_elem_of_singleton in Hfile as ->. right. by left.
    + intros [->|[->|[]%elem_of_nil]%elem_of_cons]%elem_of_cons.
      * split; [done|]. exists (str "src/main.py").
        split; [apply Hfiles; by left|by vm_compute].
      * split; [done|]. exists (str "src/utils/helper.py").
        split; [apply Hfiles; right; by left|by vm_compute].
  - done.
Qed.

Lemma get_commit_diff_example_witness :
  exists folders files,
    get_commit_diff
      (git_const (Completed (str "src/main.py" ++ [LF] ++ str "src/utils/helper.py" ++ [LF])))
      (str "/path/to/repo") (str "abc123") st0
    = (Return (folders, files), st0)
    /\ folders ≡ₚ [str "src"; str "src/utils"]
    /\ files ≡ₚ [str "src/main.py"; str "src/utils/helper.py"].
Proof.
  exact (get_commit_diff_example
           (git_const (Completed (str "src/main.py" ++ [LF] ++ str "src/utils/helper.py" ++ [LF])))
           (str "/path/to/repo") (str "abc123") st0 eq_refl).
Defined.

(** ** generate_png_from_mermaid *)

Section GeneratePng.

Variable renderer : list pystr -> gmap pystr pystr -> completion * gmap pystr pystr.



End GeneratePng.


(** ** generate_mermaid_graph *)

Section ListFacts.

Lemma filter_all {A} (P : A -> Prop) `{!forall x, Decision (P x)} (l : list A) :
  Forall P l -> filter P l = l.
Proof.
induction 1 as [|x l Hx _ IH]; [done|].
rewrite filter_cons_True by done. by rewrite IH.
Qed.

Lemma filter_none {A} (P : A -> Prop) `{!forall x, Decision (P x)} (l : list A) :
  Forall (fun x => ~ P x) l -> filter P l = [].
Proof.
induction 1 as [|x l Hx _ IH]; [done|].
by rewrite filter_cons_False.
Qed.

Lemma elem_of_first_occurrences (l : list pystr) (x : pystr) :
  x ∈ first_occurrences l <-> x ∈ l.
Proof.
induction l as [|a l IH]; [done|].
cbn [first_occurrences]. rewrite !elem_of_cons, list_elem_of_filter, IH.
destruct (decide (x = a)) as [->|Hne]; [by split; left|].
split; [intros [?|[_ ?]]; [by left|by right]|intros [?|?]; [by left|by right]].
Qed.

Lemma NoDup_first_occurrences (l : list pystr) : NoDup (first_occurrences l).
Proof.
induction l as [|a l IH]; [constructor|].
cbn [first_occurrences]. apply NoDup_cons. split.
- rewrite list_elem_of_filter. by intros [? _].
- by apply NoDup_filter.
Qed.

(** On a list without duplicates nothing is removed. *)
Lemma first_occurrences_NoDup (l : list pystr) :
  NoDup l -> first_occurrences l = l.
Proof.
induction 1 as [|a l Ha _ IH]; [done|].
cbn [first_occurrences]. rewrite IH. f_equal.
apply filter_all, Forall_forall. by intros x Hx ->.
Qed.

Lemma first_occurrences_snoc (l : list pystr) (x : pystr) :
  first_occurrences (l ++ [x])
  = if decide (x ∈ l) then first_occurrences l else first_occurrences l ++ [x].
Proof.
induction l as [|a l IH]; [done|].
change ((a :: l) ++ [x]) with (a :: (l ++ [x])).
cbn [first_occurrences]. rewrite IH.
destruct (decide (x = a)) as [->|Hne].
- rewrite (decide_True (P := a ∈ a :: l)) by by left.
  case_decide; [done|].
  rewrite filter_app, filter_singleton_False, app_nil_r; [done|exact [] |by intros ?].
- case_decide as Hin.
  + by rewrite (decide_True (P := x ∈ a :: l)) by by right.
  + rewrite (decide_False (P := x ∈ a :: l))
      by (by intros [?|?]%elem_of_cons).
    by rewrite filter_app, filter_singleton_True.
Qed.

Lemma last_parents_snoc c commits e :
  last_parents c (commits ++ [e])
  = if decide (e.1 = c) then e.2 else last_parents c commits.
Proof.
unfold last_parents. rewrite filter_app. case_decide as He.
- rewrite filter_singleton_True by done. by rewrite last_snoc.
- rewrite filter_singleton_False by done. by rewrite app_nil_r.
Qed.

(** [dict_set] on a table given by its keys. *)
Lemma dict_set_new {V} (g : pystr -> V) (ks : list pystr) (k : pystr) (v : V) :
  k ∉ ks ->
  dict_set k v (map (fun k' => (k', g k')) ks)
  = map (fun k' => (k', g k')) ks ++ [(k, v)].
Proof.
induction ks as [|a ks IH]; intros Hk; [done|].
cbn [map dict_set]. rewrite bool_decide_eq_false_2.
- rewrite IH; [done|]. intros ?. apply Hk. by right.
- intros ->. apply Hk. by left.
Qed.

Lemma dict_set_old {V} (g g' : pystr -> V) (ks : list pystr) (k : pystr) (v : V) :
  NoDup ks -> k ∈ ks -> g' k = v -> (forall k', k' <> k -> g' k' = g k') ->
  dict_set k v (map (fun k' => (k', g k')) ks)
  = map (fun k' => (k', g' k')) ks.
Proof.
intros Hnd Hk Hv Hg.
induction Hnd as [|a ks Ha Hnd IH]; [by apply elem_of_nil in Hk|].
cbn [map dict_set]. case_bool_decide as Hak.
- subst a. rewrite Hv. f_equal. apply map_ext_in.
  intros k' Hk'. rewrite Hg; [done|]. intros ->. by apply Ha, list_elem_of_In.
- apply elem_of_cons in Hk as [->|Hk]; [done|].
  rewrite IH by done. by rewrite Hg.
Qed.

End ListFacts.

Section GenerateMermaidGraph.

Context `{SetIteration}.
Variable git : list pystr -> pystr -> completion.
Variable repo_path : pystr.

(** A diff query that starts returns [diff_result] and raises nothing. *)
Lemma get_commit_diff_started commit_hash st :
  (forall msg, git (git_diff_tree_args commit_hash) repo_path <> NotStarted msg) ->
  exists st',
    get_commit_diff git repo_path commit_hash st
    = (Return (diff_result git repo_path commit_hash), st').
Proof.
intros Hstart. unfold diff_result.
destruct (git (git_diff_tree_args commit_hash) repo_path) as [out|msg|msg] eqn:Hgit.
- exists st. by apply get_commit_diff_completed.
- eexists. by apply get_commit_diff_failed.
- by destruct (Hstart msg).
Qed.

Lemma collect_commit_data_started commits commit_data st :
  diff_starts git repo_path commits = true ->
  exists st',
    collect_commit_data git repo_path commits commit_data st
    = (Return (fold_left (store_commit git repo_path) commits commit_data), st').
Proof.
revert commit_data st.
induction commits as [|[commit_hash parent_hashes] rest IH];
  intros commit_data st Hstart.
- by exists st.
- cbn [diff_starts forallb] in Hstart.
  apply andb_true_iff in Hstart as [Hhead Hrest].
  destruct (get_commit_diff_started commit_hash st) as (st1 & Hdiff).
  { intros msg Hgit. cbn [fst] in Hhead. by rewrite Hgit in Hhead. }
  destruct (IH (store_commit git repo_path commit_data (commit_hash, parent_hashes)) st1 Hrest)
    as (st' & Hcollect).
  exists st'. cbn [collect_commit_data fold_left].
  rewrite (bind_Return _ _ _ _ _ Hdiff).
  rewrite <- Hcollect. unfold store_commit. cbn [fst snd].
  by destruct (diff_result git repo_path commit_hash).
Qed.

(** The table after the first loop. *)
Lemma fold_store_commit commits :
  fold_left (store_commit git repo_path) commits [] = commit_table git repo_path commits.
Proof.
induction commits as [|e commits IH] using rev_ind; [done|].
rewrite fold_left_app. cbn [fold_left]. rewrite IH.
unfold commit_table, store_commit. rewrite map_app. cbn [map].
rewrite first_occurrences_snoc. case_decide as Hin.
- apply dict_set_old.
  + apply NoDup_first_occurrences.
  + by apply elem_of_first_occurrences.
  + rewrite last_parents_snoc. by rewrite decide_True.
  + intros k' Hk'. rewrite last_parents_snoc.
    by rewrite decide_False by (by intros ?).
- rewrite map_app. cbn [map]. rewrite last_parents_snoc at 1.
  rewrite decide_True by done.
  rewrite dict_set_new by (by rewrite elem_of_first_occurrences).
  f_equal. apply map_ext_in. intros k' Hk'%list_elem_of_In.
  rewrite last_parents_snoc. rewrite decide_False; [done|].
  intros Heq. apply Hin. rewrite Heq. by apply elem_of_first_occurrences.
Qed.

Lemma fold_edge_lines commit_hash parent_hashes mermaid_graph :
  fold_left (fun g parent_hash => g ++ edge_line parent_hash commit_hash)
    parent_hashes mermaid_graph
  = mermaid_graph
    ++ concat (map render (map (fun p => EdgeDecl p commit_hash) parent_hashes)).
Proof.
revert mermaid_graph.
induction parent_hashes as [|p ps IH]; intros mermaid_graph.
- cbn. by rewrite app_nil_r.
- cbn [fold_left map concat render]. rewrite IH. by rewrite <- app_assoc.
Qed.

(** The second loop writes the lines of the table, one after the other. *)
Lemma emit_commits_lines items mermaid_graph :
  emit_commits items mermaid_graph
  = mermaid_graph ++ concat (map render (flat_map lines_of_commit items)).
Proof.
revert mermaid_graph.
induction items as [|[commit_hash data] items IH]; intros mermaid_graph.
- cbn. by rewrite app_nil_r.
- cbn [emit_commits flat_map]. rewrite IH, fold_edge_lines.
  unfold lines_of_commit at 2. cbn [fst snd].
  rewrite map_app, concat_app. cbn [map concat render].
  by rewrite <- !app_assoc.
Qed.

Lemma generate_mermaid_graph_lines commits st :
  diff_starts git repo_path commits = true ->
  exists st',
    generate_mermaid_graph git commits repo_path st
    = (Return (str "graph TD" ++ [LF] ++ concat (map render (mermaid_lines git repo_path commits))),
       st').
Proof.
intros Hstart.
destruct (collect_commit_data_started commits [] st Hstart) as (st' & Hcollect).
exists st'. unfold generate_mermaid_graph.
rewrite (bind_Return _ _ _ _ _ Hcollect). unfold ret.
rewrite emit_commits_lines, fold_store_commit.
by rewrite <- app_assoc.
Qed.

(** A diff query that cannot be started ends the first loop. *)
Lemma collect_commit_data_not_started commits commit_data st :
  diff_starts git repo_path commits = false ->
  exists msg st',
    collect_commit_data git repo_path commits commit_data st
    = (Raise (OSError msg), st').
Proof.
revert commit_data st.
induction commits as [|[commit_hash parent_hashes] rest IH];
  intros commit_data st Hstart; [done|].
cbn [diff_starts forallb fst] in Hstart. cbn [collect_commit_data].
destruct (git (git_diff_tree_args commit_hash) repo_path) as [out|msg|msg] eqn:Hgit.
- rewrite (bind_Return _ _ _ _ _
             (get_commit_diff_completed git repo_path commit_hash out st Hgit)).
  apply IH, Hstart.
- rewrite (bind_Return _ _ _ _ _
             (get_commit_diff_failed git repo_path commit_hash msg st Hgit)).
  apply IH, Hstart.
- exists msg, st.
  by rewrite (bind_Raise _ _ _ _ _
                (get_commit_diff_not_started git repo_path commit_hash msg st Hgit)).
Qed.

(** [generate_mermaid_graph] has an output exactly when every diff query
    on the commits can be started; otherwise it raises the [OSError]. *)
Lemma generate_mermaid_graph_Return_iff commits st :
  (exists out st', generate_mermaid_graph git commits repo_path st = (Return out, st'))
  <-> diff_starts git repo_path commits = true.
Proof.
split.
- intros (out & st' & Hrun).
  destruct (diff_starts git repo_path commits) eqn:Hstart; [done|].
  destruct (collect_commit_data_not_started commits [] st Hstart)
    as (msg & st1 & Hraise).
  unfold generate_mermaid_graph in Hrun.
  by rewrite (bind_Raise _ _ _ _ _ Hraise) in Hrun.
- intros Hstart.
  destruct (generate_mermaid_graph_lines commits st Hstart) as (st' & Hrun).
  eauto.
Qed.

End GenerateMermaidGraph.

Section GraphLines.




Lemma elem_of_declared_nodes (lines : list graph_line) (c : pystr) :
  c ∈ declared_nodes lines <-> exists data, NodeDecl c data ∈ lines.
Proof.
unfold declared_nodes. rewrite list_elem_of_omap. split.
- intros ([c' data|p' c'] & Hin & Heq); [|done]. simplify_eq. eauto.
- intros [data Hin]. by exists (NodeDecl c data).
Qed.

(** A rendered line is a part of the document. *)
Lemma concat_elem_of {A} (x : list A) (l : list (list A)) :
  x ∈ l -> exists before after, concat l = before ++ x ++ after.
Proof.
intros (l1 & l2 & ->)%list_elem_of_split.
exists (concat l1), (concat l2). by rewrite concat_app.
Qed.



(** Among entries with distinct ids, each is the last one of its id. *)
Lemma last_parents_NoDup (commits : list (pystr * list pystr)) (e : pystr * list pystr) :
  NoDup (map fst commits) -> e ∈ commits -> last_parents e.1 commits = e.2.
Proof.
intros Hnd He. unfold last_parents.
replace (filter (fun e' => e'.1 = e.1) commits) with [e]; [done|].
induction commits as [|a commits IH]; [by apply elem_of_nil in He|].
cbn [map] in Hnd. apply NoDup_cons in Hnd as [Ha Hnd].
apply elem_of_cons in He as [->|He].
- rewrite filter_cons_True by done. f_equal. symmetry.
  apply filter_none, Forall_forall. intros e' He' Heq.
  apply Ha. rewrite <- Heq. by apply list_elem_of_fmap_2.
- rewrite filter_cons_False; [by apply IH|].
  intros Heq. apply Ha. rewrite Heq. by apply list_elem_of_fmap_2.
Qed.



End GraphLines.

Section MermaidLines.

Context `{SetIteration}.
Variable git : list pystr -> pystr -> completion.
Variable repo_path : pystr.







Lemma mermaid_lines_node commits c :
  c ∈ map fst commits ->
  NodeDecl c (mkInfo (last_parents c commits) (diff_result git repo_path c).1
                (diff_result git repo_path c).2)
  ∈ mermaid_lines git repo_path commits.
Proof.
intros Hc. unfold mermaid_lines, commit_table.
apply list_elem_of_In, in_flat_map.
eexists (c, _). split.
- apply list_elem_of_In.
  apply (list_elem_of_fmap_2 (fun c => (c, mkInfo _ _ _))).
  by apply elem_of_first_occurrences.
- by left.
Qed.

End MermaidLines.







(** ** Substrings and the escaping of labels *)

Section Substrings.








End Substrings.

Section DiffOfCommit.

Context `{SetIteration}.
Variable git : list pystr -> pystr -> completion.


End DiffOfCommit.





(** * Further properties of the program *)

(** ** get_git_commits: the ids are tokens *)

Section CommitIds.

Variable git : list pystr -> pystr -> completion.

Lemma split_token (s w : pystr) :
  w ∈ split s -> w <> [] /\ nospace w = true.
Proof.
intros (Hne & _ & Hall)%split_tokens. split; [done|].
unfold nospace. apply forallb_forall. intros c Hc%list_elem_of_In.
rewrite Forall_forall in Hall. by rewrite (Hall c Hc).
Qed.

(** A pair whose id and parents are tokens. *)
Lemma get_git_commits_loop_tokens lines commits st r st' :
  get_git_commits_loop lines commits st = (Return r, st') ->
  Forall (fun e : pystr * list pystr =>
            (e.1 <> [] /\ nospace e.1 = true)
            /\ Forall (fun p => p <> [] /\ nospace p = true) e.2) commits ->
  Forall (fun e : pystr * list pystr =>
            (e.1 <> [] /\ nospace e.1 = true)
            /\ Forall (fun p => p <> [] /\ nospace p = true) e.2) r.
Proof.
revert commits. induction lines as [|line lines IH]; intros commits Hrun Hacc.
- cbn in Hrun. by injection Hrun as <- _.
- cbn [get_git_commits_loop] in Hrun.
  destruct (split (strip line)) as [|commit_id parent_ids] eqn:Hsp; [done|].
  unfold getitem in Hrun. cbn [lookup list_lookup] in Hrun.
  rewrite bind_ret_l in Hrun. apply IH in Hrun; [done|].
  apply Forall_app. split; [done|]. apply Forall_singleton. cbn [fst snd].
  assert (Htok : forall w, w ∈ commit_id :: parent_ids -> w <> [] /\ nospace w = true).
  { intros w Hw. apply (split_token (strip line)). by rewrite Hsp. }
  split; [apply Htok; by left|].
  destruct parent_ids as [|p ps]; [by constructor|]. cbn.
  apply Forall_forall. intros w Hw. apply Htok. by right.
Qed.

End CommitIds.

(** X1. In whatever list [get_git_commits] returns, every commit id and
    every parent id is a non-empty string without whitespace. *)
Theorem get_git_commits_ids_are_tokens
    (git : list pystr -> pystr -> completion) (repo_path : pystr)
    (st st' : state) (commits : list (pystr * list pystr)) :
  get_git_commits git repo_path st = (Return commits, st') ->
  forall commit_id parent_ids, (commit_id, parent_ids) ∈ commits ->
    (commit_id <> [] /\ nospace commit_id = true)
    /\ forall p, p ∈ parent_ids -> p <> [] /\ nospace p = true.
Proof.
intros Hrun commit_id parent_ids Hin.
assert (Hall : Forall (fun e : pystr * list pystr =>
            (e.1 <> [] /\ nospace e.1 = true)
            /\ Forall (fun p => p <> [] /\ nospace p = true) e.2) commits).
{ destruct (git git_log_args repo_path) as [out|msg|msg] eqn:Hgit.
  - rewrite (get_git_commits_completed git repo_path out st Hgit) in Hrun.
    unfold try_except in Hrun.
    destruct (get_git_commits_loop (splitlines out) [] st) as [[r|e] st1] eqn:Hloop.
    + injection Hrun as <- _.
      by apply (get_git_commits_loop_tokens (splitlines out) [] st r st1).
    + destruct e; cbn in Hrun; [|done..]. injection Hrun as <- _. constructor.
  - unfold get_git_commits, try_except, bind, subprocess_run_git in Hrun.
    rewrite Hgit in Hrun. cbn in Hrun. injection Hrun as <- _. constructor.
  - unfold get_git_commits, try_except, bind, subprocess_run_git in Hrun.
    by rewrite Hgit in Hrun. }
rewrite Forall_forall in Hall. destruct (Hall _ Hin) as [Hid Hps].
split; [done|]. intros p Hp. rewrite Forall_forall in Hps. by apply Hps.
Qed.

Lemma get_git_commits_ids_are_tokens_witness :
  forall commit_id parent_ids,
    (commit_id, parent_ids)
      ∈ [(str "abc123", [str "def456"; str "0a1b2c3"]); (str "def456", [])] ->
    (commit_id <> [] /\ nospace commit_id = true)
    /\ forall p, p ∈ parent_ids -> p <> [] /\ nospace p = true.
Proof.
exact (get_git_commits_ids_are_tokens
         (git_const (Completed (str "abc123 def456  0a1b2c3 " ++ [LF] ++ str "def456 ")))
         (str "/path/to/repo") st0 st0 _ eq_refl).
Defined.

(** ** get_commit_diff: the directories *)

Section Dirname.

Lemma rfind_from_absent (i best : Z) (x : char) (s : pystr) :
  x ∉ s -> rfind_from i best x s = best.
Proof.
revert i best. induction s as [|c s IH]; intros i best Hx; [done|].
cbn [rfind_from]. rewrite IH by (intros ?; apply Hx; by right).
destruct (c =? x) eqn:Hc; [|done].
apply N.eqb_eq in Hc as ->. destruct Hx. by left.
Qed.

Lemma rfind_from_present (i best : Z) (x : char) (s : pystr) :
  x ∈ s -> (i <= rfind_from i best x s)%Z.
Proof.
revert i best. induction s as [|c s IH]; intros i best Hx;
  [by apply elem_of_nil in Hx|].
cbn [rfind_from]. destruct (decide (x ∈ s)) as [Hin|Hnot].
- specialize (IH (i + 1)%Z (if c =? x then i else best) Hin). lia.
- rewrite rfind_from_absent by done.
  apply elem_of_cons in Hx as [->|Hx]; [|done].
  rewrite N.eqb_refl. lia.
Qed.

Lemma lstrip_char_suffix (x : char) (s : pystr) :
  exists xs, s = xs ++ lstrip_char x s.
Proof.
induction s as [|c s [xs IH]]; [by exists []|].
cbn [lstrip_char]. destruct (c =? x).
- exists (c :: xs). cbn. by f_equal.
- by exists [].
Qed.

Lemma lstrip_char_nil (x : char) (s : pystr) :
  lstrip_char x s = [] -> s = repeat x (length s).
Proof.
induction s as [|c s IH]; [done|].
cbn [lstrip_char]. destruct (c =? x) eqn:Hc; [|done].
apply N.eqb_eq in Hc as ->. intros Hs. cbn. f_equal. by apply IH.
Qed.

Lemma rstrip_char_prefix (x : char) (s : pystr) :
  rstrip_char x s `prefix_of` s.
Proof.
unfold rstrip_char. destruct (lstrip_char_suffix x (rev s)) as [xs Hs].
exists (rev xs). rewrite <- rev_app_distr, <- Hs. by rewrite rev_involutive.
Qed.

Lemma rstrip_char_nil (x : char) (s : pystr) :
  rstrip_char x s = [] -> s = repeat x (length s).
Proof.
unfold rstrip_char. intros Hs.
assert (Hrev : lstrip_char x (rev s) = []).
{ rewrite <- (rev_involutive (lstrip_char x (rev s))). by rewrite Hs. }
apply lstrip_char_nil in Hrev. rewrite length_rev in Hrev.
rewrite <- (rev_involutive s) at 1. rewrite Hrev. apply rev_repeat.
Qed.

(** The directory of a path is a leading part of the path. *)
Lemma dirname_prefix (p : pystr) : dirname p `prefix_of` p.
Proof.
unfold dirname. destruct (_ && _).
- etrans; [apply rstrip_char_prefix|apply prefix_take].
- apply prefix_take.
Qed.

(** The directory is empty exactly for a path without slash. *)
Lemma dirname_nil_iff (p : pystr) : dirname p = [] <-> SLASH ∉ p.
Proof.
split.
- intros Hdir Hin. unfold dirname in Hdir.
  pose proof (rfind_from_present 0 (-1) SLASH p Hin) as Hfound.
  fold (rfind SLASH p) in Hfound.
  destruct p as [|c p]; [by apply elem_of_nil in Hin|].
  assert (Hhead : take (Z.to_nat (rfind SLASH (c :: p) + 1)) (c :: p) <> []).
  { replace (Z.to_nat (rfind SLASH (c :: p) + 1))
      with (S (Z.to_nat (rfind SLASH (c :: p)))) by lia. done. }
  set (head := take _ _) in *.
  rewrite (bool_decide_eq_false_2 _ Hhead) in Hdir. cbn [negb andb] in Hdir.
  case_bool_decide as Hall; cbn [negb] in Hdir; [done|].
  by apply rstrip_char_nil in Hdir.
- intros Hnot. unfold dirname, rfind.
  rewrite rfind_from_absent by done. by cbn.
Qed.

End Dirname.

(** X2. On every diff output, each directory that [get_commit_diff]
    returns is a non-empty leading part of one of the returned file paths,
    and no directory is returned exactly when no returned file path
    contains a slash. *)
Theorem get_commit_diff_directories `{SetIteration}
    (git : list pystr -> pystr -> completion)
    (repo_path commit_hash out : pystr) (st : state) :
  git (git_diff_tree_args commit_hash) repo_path = Completed out ->
  exists changed_folders changed_files,
    get_commit_diff git repo_path commit_hash st
    = (Return (changed_folders, changed_files), st)
    /\ (forall d, d ∈ changed_folders ->
        d <> [] /\ exists file, file ∈ changed_files /\ d `prefix_of` file)
    /\ (changed_folders = [] <-> forall file, file ∈ changed_files -> SLASH ∉ file).
Proof.
intros Hgit.
destruct (get_commit_diff_value git repo_path commit_hash out st Hgit)
  as (changed_folders & changed_files & Hrun & _ & _ & _ & Hfolders).
exists changed_folders, changed_files. split; [done|]. split.
- intros d (Hd & file & Hfile & ->)%Hfolders. split; [done|].
  exists file. split; [done|apply dirname_prefix].
- split.
  + intros Hnil file Hfile Hslash.
    assert (Hin : dirname file ∈ changed_folders).
    { apply Hfolders. split; [by rewrite dirname_nil_iff; intros ?|eauto]. }
    rewrite Hnil in Hin. by apply elem_of_nil in Hin.
  + intros Hnone. destruct changed_folders as [|d ds]; [done|].
    destruct (proj1 (Hfolders d)) as (Hd & file & Hfile & ->); [by left|].
    destruct Hd. apply dirname_nil_iff. by apply Hnone.
Qed.

Lemma get_commit_diff_directories_witness :
  exists changed_folders changed_files,
    get_commit_diff
      (git_const (Completed (str "README.md" ++ [LF] ++ str "src/a/b.py" ++ [LF])))
      (str "/path/to/repo") (str "abc123") st0
    = (Return (changed_folders, changed_files), st0)
    /\ (forall d, d ∈ changed_folders ->
        d <> [] /\ exists file, file ∈ changed_files /\ d `prefix_of` file)
    /\ (changed_folders = [] <-> forall file, file ∈ changed_files -> SLASH ∉ file).
Proof.
exact (get_commit_diff_directories
         (git_const (Completed (str "README.md" ++ [LF] ++ str "src/a/b.py" ++ [LF])))
         (str "/path/to/repo") (str "abc123") _ st0 eq_refl).
Defined.

(** ** generate_mermaid_graph: what is printed, and when it raises *)

Section GraphEffects.

Context `{SetIteration}.
Variable git : list pystr -> pystr -> completion.
Variable repo_path : pystr.

Lemma state_eta (st : state) : mkState (stdout st) (fs st) = st.
Proof. by destruct st. Qed.

(** The first loop with its effects: one message per failed diff query. *)
Lemma collect_commit_data_run commits commit_data st :
  diff_starts git repo_path commits = true ->
  collect_commit_data git repo_path commits commit_data st
  = (Return (fold_left (store_commit git repo_path) commits commit_data),
     mkState (stdout st ++ diff_messages git repo_path commits) (fs st)).
Proof.
revert commit_data st.
induction commits as [|[commit_hash parent_hashes] rest IH];
  intros commit_data st Hstart.
- cbn. by rewrite app_nil_r, state_eta.
- cbn [diff_starts forallb fst] in Hstart.
  apply andb_true_iff in Hstart as [Hhead Hrest].
  cbn [collect_commit_data fold_left diff_messages flat_map fst].
  unfold store_commit at 2. unfold diff_result. cbn [fst snd].
  destruct (git (git_diff_tree_args commit_hash) repo_path) as [out|msg|msg] eqn:Hgit;
    [| |done].
  + rewrite (bind_Return _ _ _ _ _
               (get_commit_diff_completed git repo_path commit_hash out st Hgit)).
    by rewrite (IH _ st Hrest).
  + rewrite (bind_Return _ _ _ _ _
               (get_commit_diff_failed git repo_path commit_hash msg st Hgit)).
    rewrite (IH _ _ Hrest). cbn [stdout fs]. by rewrite <- app_assoc.
Qed.

(** The first loop up to an entry whose diff query cannot be started. *)
Lemma collect_commit_data_raise before e after msg commit_data st :
  diff_starts git repo_path before = true ->
  git (git_diff_tree_args e.1) repo_path = NotStarted msg ->
  collect_commit_data git repo_path (before ++ e :: after) commit_data st
  = (Raise (OSError msg),
     mkState (stdout st ++ diff_messages git repo_path before) (fs st)).
Proof.
revert commit_data st.
induction before as [|[commit_hash parent_hashes] rest IH];
  intros commit_data st Hstart Hgit.
- destruct e as [commit_hash parent_hashes]. cbn [app collect_commit_data].
  rewrite (bind_Raise _ _ _ _ _
             (get_commit_diff_not_started git repo_path commit_hash msg st Hgit)).
  cbn. by rewrite app_nil_r, state_eta.
- cbn [diff_starts forallb fst] in Hstart.
  apply andb_true_iff in Hstart as [Hhead Hrest].
  change (((commit_hash, parent_hashes) :: rest) ++ e :: after)
    with ((commit_hash, parent_hashes) :: (rest ++ e :: after)).
  cbn [collect_commit_data diff_messages flat_map fst].
  destruct (git (git_diff_tree_args commit_hash) repo_path) as [out|msg'|msg'] eqn:Hgit';
    [| |done].
  + rewrite (bind_Return _ _ _ _ _
               (get_commit_diff_completed git repo_path commit_hash out st Hgit')).
    by rewrite (IH _ st Hrest Hgit).
  + rewrite (bind_Return _ _ _ _ _
               (get_commit_diff_failed git repo_path commit_hash msg' st Hgit')).
    rewrite (IH _ _ Hrest Hgit). cbn [stdout fs]. by rewrite <- app_assoc.
Qed.

Lemma generate_mermaid_graph_run commits st :
  diff_starts git repo_path commits = true ->
  generate_mermaid_graph git commits repo_path st
  = (Return (str "graph TD" ++ [LF]
             ++ concat (map render (mermaid_lines git repo_path commits))),
     mkState (stdout st ++ diff_messages git repo_path commits) (fs st)).
Proof.
intros Hstart. unfold generate_mermaid_graph.
rewrite (bind_Return _ _ _ _ _ (collect_commit_data_run commits [] st Hstart)).
unfold ret. rewrite emit_commits_lines, fold_store_commit.
by rewrite <- app_assoc.
Qed.

Lemma generate_mermaid_graph_raise before e after msg st :
  diff_starts git repo_path before = true ->
  git (git_diff_tree_args e.1) repo_path = NotStarted msg ->
  generate_mermaid_graph git (before ++ e :: after) repo_path st
  = (Raise (OSError msg),
     mkState (stdout st ++ diff_messages git repo_path before) (fs st)).
Proof.
intros Hstart Hgit. unfold generate_mermaid_graph.
by rewrite (bind_Raise _ _ _ _ _
              (collect_commit_data_raise before e after msg [] st Hstart Hgit)).
Qed.

End GraphEffects.

(** X3. When every diff query can be started, [generate_mermaid_graph]
    prints exactly one message for each input entry whose diff query ends
    with a non-zero exit status, in input order (an id listed twice is
    queried and reported twice), prints nothing else, and leaves the files
    as they are. *)
Theorem generate_mermaid_graph_prints_diff_failures `{SetIteration}
    (git : list pystr -> pystr -> completion) (repo_path : pystr)
    (commits : list (pystr * list pystr)) (st : state) :
  diff_starts git repo_path commits = true ->
  exists out st',
    generate_mermaid_graph git commits repo_path st = (Return out, st')
    /\ stdout st'
       = stdout st
         ++ flat_map (fun e => match git (git_diff_tree_args e.1) repo_path with
                               | Failed msg => [MSG_DIFF ++ e.1 ++ str ": " ++ msg]
                               | _ => []
                               end) commits
    /\ fs st' = fs st.
Proof.
intros Hstart. eexists _, _.
split; [by apply generate_mermaid_graph_run|]. by split.
Qed.

Lemma generate_mermaid_graph_prints_diff_failures_witness :
  let git := fun (args : list pystr) (_ : pystr) =>
               if bool_decide (args = git_diff_tree_args (str "def456"))
               then Failed (str "exit status 128")
               else Completed (str "src/main.py" ++ [LF]) in
  let commits := [(str "def456", []); (str "abc123", [str "def456"]); (str "def456", [])] in
  exists out st',
    generate_mermaid_graph git commits (str "/path/to/repo") st0 = (Return out, st')
    /\ stdout st'
       = [MSG_DIFF ++ str "def456: exit status 128";
          MSG_DIFF ++ str "def456: exit status 128"]
    /\ fs st' = ∅.
Proof.
exact (generate_mermaid_graph_prints_diff_failures
         (fun (args : list pystr) (_ : pystr) =>
            if bool_decide (args = git_diff_tree_args (str "def456"))
            then Failed (str "exit status 128")
            else Completed (str "src/main.py" ++ [LF]))
         (str "/path/to/repo")
         [(str "def456", []); (str "abc123", [str "def456"]); (str "def456", [])]
         st0 eq_refl).
Defined.

(** X4. When the diff query of an input entry cannot be started and those
    of the entries before it can, [generate_mermaid_graph] raises that
    [OSError]: it returns no document, the entries after it are not
    queried, and only the messages for the entries before it are printed. *)
Theorem generate_mermaid_graph_raises_at_first_unstarted_diff `{SetIteration}
    (git : list pystr -> pystr -> completion) (repo_path : pystr)
    (before after : list (pystr * list pystr)) (e : pystr * list pystr)
    (msg : pystr) (st : state) :
  diff_starts git repo_path before = true ->
  git (git_diff_tree_args e.1) repo_path = NotStarted msg ->
  generate_mermaid_graph git (before ++ e :: after) repo_path st
  = (Raise (OSError msg),
     mkState (stdout st ++ diff_messages git repo_path before) (fs st)).
Proof. apply generate_mermaid_graph_raise. Qed.

Lemma generate_mermaid_graph_raises_at_first_unstarted_diff_witness :
  let git := fun (args : list pystr) (_ : pystr) =>
               if bool_decide (args = git_diff_tree_args (str "abc123"))
               then Failed (str "exit status 128")
               else if bool_decide (args = git_diff_tree_args (str "def456"))
               then NotStarted (str "No such file or directory")
               else Completed (str "src/main.py" ++ [LF]) in
  generate_mermaid_graph git
    [(str "abc123", [str "def456"]); (str "def456", []); (str "0a1b2c3", [])]
    (str "/path/to/repo") st0
  = (Raise (OSError (str "No such file or directory")),
     mkState [MSG_DIFF ++ str "abc123: exit status 128"] ∅).
Proof.
exact (generate_mermaid_graph_raises_at_first_unstarted_diff
         (fun (args : list pystr) (_ : pystr) =>
            if bool_decide (args = git_diff_tree_args (str "abc123"))
            then Failed (str "exit status 128")
            else if bool_decide (args = git_diff_tree_args (str "def456"))
            then NotStarted (str "No such file or directory")
            else Completed (str "src/main.py" ++ [LF]))
         (str "/path/to/repo")
         [(str "abc123", [str "def456"])] [(str "0a1b2c3", [])] (str "def456", [])
         (str "No such file or directory") st0 eq_refl eq_refl).
Defined.

(** ** The label of a node *)

Section Label.

Lemma replace_escaped (q prev : char) (s : pystr) :
  q <> BACKSLASH -> escaped q prev (replace q [BACKSLASH; q] s) = true.
Proof.
intros Hq. revert prev. unfold replace.
induction s as [|c s IH]; intros prev; [done|].
cbn [flat_map]. destruct (c =? q) eqn:Hc.
- apply N.eqb_eq in Hc as ->. cbn [app escaped].
  assert (Hb : (BACKSLASH =? q) = false) by (apply N.eqb_neq; by intros <-).
  by rewrite IH, Hb, !N.eqb_refl.
- cbn [app escaped]. by rewrite Hc, IH.
Qed.

Lemma replace_other_escaped (q q' prev : char) (s : pystr) :
  q <> BACKSLASH -> q' <> q ->
  escaped q prev s = true ->
  escaped q prev (replace q' [BACKSLASH; q'] s) = true.
Proof.
intros Hq Hq'. revert prev. unfold replace.
induction s as [|c s IH]; intros prev Hs; [done|].
cbn [escaped] in Hs. apply andb_true_iff in Hs as [Hc Hs].
cbn [flat_map]. destruct (c =? q') eqn:Hcq.
- apply N.eqb_eq in Hcq as ->. cbn [app escaped].
  rewrite (IH _ Hs), andb_true_r.
  assert (Hb : (BACKSLASH =? q) = false) by (apply N.eqb_neq; by intros <-).
  assert (Hq'q : (q' =? q) = false) by by apply N.eqb_neq.
  by rewrite Hb, Hq'q.
- cbn [app escaped]. by rewrite Hc, (IH _ Hs).
Qed.

Lemma list_of_set_empty `{SetIteration} : list_of_set ∅ = [].
Proof.
apply Permutation_nil_r. rewrite list_of_set_perm. by rewrite elements_empty.
Qed.

Lemma lstrip_all_space (s : pystr) : forallb isspace s = true -> lstrip s = [].
Proof.
induction s as [|c s IH]; [done|].
cbn [forallb lstrip]. intros [Hc Hs]%andb_true_iff. rewrite Hc. by apply IH.
Qed.

Lemma strip_all_space (s : pystr) : forallb isspace s = true -> strip s = [].
Proof. intros Hs. unfold strip. by rewrite lstrip_all_space. Qed.

End Label.

(** X5. In the label text of a node (lines 70-80) every double quote and
    every apostrophe stands directly after a backslash, whatever the
    folders and files of the commit are. *)
Theorem commit_text_quotes_are_escaped (data : commit_info) (prev : char) :
  escaped DQUOTE prev (commit_text data) = true
  /\ escaped SQUOTE prev (commit_text data) = true.
Proof.
unfold commit_text. split.
- apply replace_other_escaped; [done..|]. by apply replace_escaped.
- by apply replace_escaped.
Qed.

(** X6. A commit of the input whose diff query ends with a non-zero exit
    status, or succeeds with an output that is empty or whitespace only,
    is declared with the label "Нет изменений": the document contains the
    line [  c["c<br>Нет изменений"]]. *)
Theorem node_without_changes `{SetIteration}
    (git : list pystr -> pystr -> completion) (repo_path : pystr)
    (commits : list (pystr * list pystr)) (st : state) (c : pystr) :
  diff_starts git repo_path commits = true ->
  c ∈ map fst commits ->
  match git (git_diff_tree_args c) repo_path with
  | Completed out => forallb isspace out
  | Failed _ => true
  | NotStarted _ => false
  end = true ->
  exists out st' before after,
    generate_mermaid_graph git commits repo_path st = (Return out, st')
    /\ out = before
             ++ (str "  " ++ c ++ str "[" ++ [DQUOTE] ++ c ++ BR ++ NO_CHANGES
                 ++ [DQUOTE] ++ str "]" ++ [LF])
             ++ after.
Proof.
intros Hstart Hc Hdiff.
pose proof (mermaid_lines_node git repo_path commits c Hc) as Hnode.
assert (Hres : diff_result git repo_path c = ([], [])).
{ unfold diff_result.
  destruct (git (git_diff_tree_args c) repo_path) as [diff|msg|msg]; [|done..].
  rewrite strip_all_space by done. cbn. by rewrite list_of_set_empty. }
rewrite Hres in Hnode. cbn [fst snd] in Hnode.
destruct (concat_elem_of (node_line c (mkInfo (last_parents c commits) [] []))
            (map render (mermaid_lines git repo_path commits)))
  as (before & after & Hcat).
{ by apply (list_elem_of_fmap_2 render _ (NodeDecl c _)). }
exists (str "graph TD" ++ [LF]
        ++ concat (map render (mermaid_lines git repo_path commits))),
  (mkState (stdout st ++ diff_messages git repo_path commits) (fs st)),
  (str "graph TD" ++ [LF] ++ before), after.
split; [by apply generate_mermaid_graph_run|].
rewrite Hcat. unfold node_line.
change (commit_text (mkInfo (last_parents c commits) [] [])) with NO_CHANGES.
by rewrite <- !app_assoc.
Qed.

Lemma node_without_changes_witness :
  let git := fun (args : list pystr) (_ : pystr) =>
               if bool_decide (args = git_diff_tree_args (str "def456"))
               then Completed [LF]
               else Completed (str "src/main.py" ++ [LF]) in
  exists out st' before after,
    generate_mermaid_graph git
      [(str "abc123", [str "def456"]); (str "def456", [])] (str "/path/to/repo") st0
    = (Return out, st')
    /\ out = before
             ++ (str "  " ++ str "def456" ++ str "[" ++ [DQUOTE] ++ str "def456"
                 ++ BR ++ NO_CHANGES ++ [DQUOTE] ++ str "]" ++ [LF])
             ++ after.
Proof.
exact (node_without_changes
         (fun (args : list pystr) (_ : pystr) =>
            if bool_decide (args = git_diff_tree_args (str "def456"))
            then Completed [LF]
            else Completed (str "src/main.py" ++ [LF]))
         (str "/path/to/repo")
         [(str "abc123", [str "def456"]); (str "def456", [])] st0 (str "def456")
         eq_refl (list_elem_of_further _ _ _ (list_elem_of_here _ _)) eq_refl).
Defined.

(** ** The document for distinct commit ids *)

Section DistinctIds.

Context `{SetIteration}.
Variable git : list pystr -> pystr -> completion.
Variable repo_path : pystr.

Lemma commit_table_NoDup commits :
  NoDup (map fst commits) ->
  commit_table git repo_path commits
  = map (fun e => (e.1, mkInfo e.2 (diff_result git repo_path e.1).1
                          (diff_result git repo_path e.1).2)) commits.
Proof.
intros Hnd. unfold commit_table.
rewrite first_occurrences_NoDup by done. rewrite map_map.
apply map_ext_in. intros e He%list_elem_of_In.
by rewrite last_parents_NoDup.
Qed.

Lemma render_lines_of_commit (item : pystr * commit_info) :
  concat (map render (lines_of_commit item))
  = node_line item.1 item.2
    ++ concat (map (fun p => edge_line p item.1) (parents item.2)).
Proof.
unfold lines_of_commit. cbn [map concat render]. f_equal.
by rewrite map_map.
Qed.

Lemma render_flat_map (items : list (pystr * commit_info)) :
  concat (map render (flat_map lines_of_commit items))
  = concat (map (fun item =>
                   node_line item.1 item.2
                   ++ concat (map (fun p => edge_line p item.1) (parents item.2)))
              items).
Proof.
induction items as [|item items IH]; [done|].
cbn [flat_map map concat]. rewrite map_app, concat_app, IH.
by rewrite render_lines_of_commit.
Qed.

End DistinctIds.

(** X7. For an input without repeated commit id whose diff queries can all
    be started, the document is the header line followed, entry by entry in
    input order, by the node declaration of the entry (labelled with the
    folders and files of its diff) and one edge line per parent of the
    entry, in the order of its parent list. *)
Theorem generate_mermaid_graph_distinct_ids `{SetIteration}
    (git : list pystr -> pystr -> completion) (repo_path : pystr)
    (commits : list (pystr * list pystr)) (st : state) :
  diff_starts git repo_path commits = true ->
  NoDup (map fst commits) ->
  exists st',
    generate_mermaid_graph git commits repo_path st
    = (Return
         (str "graph TD" ++ [LF]
          ++ concat
               (map (fun e : pystr * list pystr =>
                       node_line e.1
                         (mkInfo e.2 (diff_result git repo_path e.1).1
                            (diff_result git repo_path e.1).2)
                       ++ concat (map (fun p => edge_line p e.1) e.2))
                  commits)),
       st').
Proof.
intros Hstart Hnd. eexists.
rewrite (generate_mermaid_graph_run git repo_path commits st Hstart).
do 3 f_equal. unfold mermaid_lines.
rewrite render_flat_map, commit_table_NoDup by done.
by rewrite map_map.
Qed.

Lemma generate_mermaid_graph_distinct_ids_witness :
  let git := git_const (Completed (str "src/main.py" ++ [LF])) in
  let commits := [(str "abc123", [str "def456"; str "0a1b2c3"]); (str "def456", [])] in
  exists st',
    generate_mermaid_graph git commits (str "/path/to/repo") st0
    = (Return
         (str "graph TD" ++ [LF]
          ++ concat
               (map (fun e : pystr * list pystr =>
                       node_line e.1
                         (mkInfo e.2 (diff_result git (str "/path/to/repo") e.1).1
                            (diff_result git (str "/path/to/repo") e.1).2)
                       ++ concat (map (fun p => edge_line p e.1) e.2))
                  commits)),
       st').
Proof.
refine (generate_mermaid_graph_distinct_ids
          (git_const (Completed (str "src/main.py" ++ [LF])))
          (str "/path/to/repo")
          [(str "abc123", [str "def456"; str "0a1b2c3"]); (str "def456", [])]
          st0 eq_refl _).
apply (bool_decide_unpack _). vm_compute. exact I.
Defined.

(** ** generate_png_from_mermaid and main: whole runs *)

Section WholeRuns.

Context `{SetIteration}.
Variable git : list pystr -> pystr -> completion.
Variable renderer : list pystr -> gmap pystr pystr -> completion * gmap pystr pystr.

Lemma remove_scratch_file_run (st : state) :
  remove_scratch_file st
  = (Return tt, mkState (stdout st) (delete TEMP_MMD (fs st))).
Proof.
unfold remove_scratch_file, bind, os_path_exists, os_remove, ret.
destruct (fs st !! TEMP_MMD) as [text|] eqn:Hfile.
- rewrite bool_decide_eq_true_2 by eauto. by rewrite Hfile.
- rewrite bool_decide_eq_false_2 by (intros [? ?]; congruence).
  rewrite delete_id by done. by rewrite state_eta.
Qed.

Lemma generate_png_from_mermaid_run mermaid_graph output_path visualizer_path st :
  generate_png_from_mermaid renderer mermaid_graph output_path visualizer_path st
  = (match (renderer_run renderer mermaid_graph output_path visualizer_path (fs st)).1 with
     | NotStarted msg => Raise (OSError msg)
     | _ => Return tt
     end,
     mkState
       (match (renderer_run renderer mermaid_graph output_path visualizer_path (fs st)).1 with
        | Failed msg => stdout st ++ [MSG_PNG ++ msg]
        | _ => stdout st
        end)
       (delete TEMP_MMD
          (renderer_run renderer mermaid_graph output_path visualizer_path (fs st)).2)).
Proof.
unfold generate_png_from_mermaid, try_finally, try_except, bind, renderer_run.
unfold write_file, subprocess_run_renderer. cbn [fs stdout].
destruct (renderer _ _) as [c files'] eqn:Hrun. cbn [fst snd].
destruct c as [out|msg|msg]; cbn [completed ret raise print];
  by rewrite remove_scratch_file_run.
Qed.

Lemma get_git_commits_run repo_path out st :
  git git_log_args repo_path = Completed out ->
  forallb (fun line => negb (forallb isspace line)) (splitlines out) = true ->
  get_git_commits git repo_path st
  = (Return (map commit_of_line (splitlines out)), st).
Proof.
intros Hgit Hlines.
rewrite (get_git_commits_completed git repo_path out st Hgit).
unfold try_except. rewrite get_git_commits_loop_ok; [done|].
apply Forall_forall. intros line Hin Hsplit.
rewrite forallb_forall in Hlines.
apply list_elem_of_In in Hin. specialize (Hlines line Hin).
apply split_nil_iff in Hsplit. by rewrite Hsplit in Hlines.
Qed.

Lemma get_git_commits_failed repo_path msg st :
  git git_log_args repo_path = Failed msg ->
  get_git_commits git repo_path st
  = (Return [], mkState (stdout st ++ [MSG_COMMITS ++ msg]) (fs st)).
Proof.
intros Hgit. unfold get_git_commits, try_except, bind, subprocess_run_git.
by rewrite Hgit.
Qed.

Lemma get_git_commits_not_started repo_path msg st :
  git git_log_args repo_path = NotStarted msg ->
  get_git_commits git repo_path st = (Raise (OSError msg), st).
Proof.
intros Hgit. unfold get_git_commits, try_except, bind, subprocess_run_git.
by rewrite Hgit.
Qed.

(** [main] once the commit list is there and not empty. *)
Lemma main_with_commits args_repo args_visualizer args_output st st1 commits :
  get_git_commits git args_repo st = (Return commits, st1) ->
  commits <> [] ->
  main git renderer args_repo args_visualizer args_output st
  = (let* mermaid_graph := generate_mermaid_graph git commits args_repo in
     let* _ :=
       generate_png_from_mermaid renderer mermaid_graph args_output
         args_visualizer in
     print MSG_DONE) st1.
Proof.
intros Hlog Hne. unfold main. rewrite (bind_Return _ _ _ _ _ Hlog).
by destruct commits.
Qed.

End WholeRuns.

(** X8. [generate_png_from_mermaid] runs the renderer on the files in
    which temp.mmd holds the graph text (whatever temp.mmd held before) and
    leaves the files as the renderer left them, without temp.mmd. It
    returns when the renderer ends with exit status zero, returns after
    printing one message when the renderer ends with a non-zero exit
    status, and raises the [OSError], printing nothing, when the renderer
    cannot be started. *)
Theorem generate_png_from_mermaid_whole_run
    (renderer : list pystr -> gmap pystr pystr -> completion * gmap pystr pystr)
    (mermaid_graph output_path visualizer_path : pystr) (st : state) :
  generate_png_from_mermaid renderer mermaid_graph output_path visualizer_path st
  = match renderer [visualizer_path; str "-i"; TEMP_MMD; str "-o"; output_path]
            (<[TEMP_MMD := mermaid_graph]> (fs st)) with
    | (Completed _, files') =>
        (Return tt, mkState (stdout st) (delete TEMP_MMD files'))
    | (Failed msg, files') =>
        (Return tt, mkState (stdout st ++ [MSG_PNG ++ msg]) (delete TEMP_MMD files'))
    | (NotStarted msg, files') =>
        (Raise (OSError msg), mkState (stdout st) (delete TEMP_MMD files'))
    end.
Proof.
rewrite generate_png_from_mermaid_run. unfold renderer_run.
by destruct (renderer _ _) as [[out|msg|msg] files'].
Qed.

(** X9. When the log command ends with a non-zero exit status, or succeeds
    with an empty output, [main] prints that no commits could be obtained
    (after the error message of [get_git_commits] in the first case) and
    returns: the renderer is not run and the files are left as they are. *)
Theorem main_without_commits `{SetIteration}
    (git : list pystr -> pystr -> completion)
    (renderer : list pystr -> gmap pystr pystr -> completion * gmap pystr pystr)
    (args_repo args_visualizer args_output msg : pystr) (st : state) :
  (git git_log_args args_repo = Failed msg ->
   main git renderer args_repo args_visualizer args_output st
   = (Return tt,
      mkState (stdout st ++ [MSG_COMMITS ++ msg; MSG_NO_COMMITS]) (fs st)))
  /\ (git git_log_args args_repo = Completed [] ->
      main git renderer args_repo args_visualizer args_output st
      = (Return tt, mkState (stdout st ++ [MSG_NO_COMMITS]) (fs st))).
Proof.
split; intros Hgit; unfold main.
- rewrite (bind_Return _ _ _ _ _ (get_git_commits_failed git args_repo msg st Hgit)).
  unfold bind, print, ret. cbn [stdout fs]. by rewrite <- app_assoc.
- rewrite (bind_Return _ _ _ _ _
             (get_git_commits_run git args_repo [] st Hgit eq_refl)).
  done.
Qed.

Lemma main_without_commits_witness :
  let renderer := fun (_ : list pystr) (files : gmap pystr pystr) =>
                    (Completed [], <[str "graph.png" := str "PNG"]> files) in
  main (git_const (Failed (str "exit status 128"))) renderer
    (str "/path/to/repo") (str "mmdc") (str "graph.png") st0
  = (Return tt, mkState [MSG_COMMITS ++ str "exit status 128"; MSG_NO_COMMITS] ∅)
  /\ main (git_const (Completed [])) renderer
       (str "/path/to/repo") (str "mmdc") (str "graph.png") st0
     = (Return tt, mkState [MSG_NO_COMMITS] ∅).
Proof.
intros renderer. split.
- exact (proj1 (main_without_commits (git_const (Failed (str "exit status 128")))
                  renderer (str "/path/to/repo") (str "mmdc") (str "graph.png")
                  (str "exit status 128") st0) eq_refl).
- exact (proj2 (main_without_commits (git_const (Completed []))
                  renderer (str "/path/to/repo") (str "mmdc") (str "graph.png")
                  [] st0) eq_refl).
Defined.

Lemma splitlines_nil (s : pystr) : splitlines s = [] -> s = [].
Proof.
destruct s as [|c s]; [done|]. cbn [splitlines].
destruct (islinebreak c); [done|]. by destruct (splitlines s).
Qed.

(** X10. A whole run of [main] on a log output that is not empty and has
    no blank line, when every diff query can be started: the renderer is
    run on the files in which temp.mmd holds the graph document of the
    commits of the log, and the files are left as the renderer left them,
    without temp.mmd. After the messages of the failed diff queries [main]
    prints the message of success when the renderer ends with exit status
    zero, the renderer's error message and then still the message of
    success when it ends with a non-zero exit status, and raises the
    [OSError] without the message of success when the renderer cannot be
    started. *)
Theorem main_whole_run `{SetIteration}
    (git : list pystr -> pystr -> completion)
    (renderer : list pystr -> gmap pystr pystr -> completion * gmap pystr pystr)
    (args_repo args_visualizer args_output out : pystr) (st : state) :
  git git_log_args args_repo = Completed out ->
  forallb (fun line => negb (forallb isspace line)) (splitlines out) = true ->
  out <> [] ->
  diff_starts git args_repo (map commit_of_line (splitlines out)) = true ->
  let commits := map commit_of_line (splitlines out) in
  let mermaid_graph :=
    str "graph TD" ++ [LF]
    ++ concat (map render (mermaid_lines git args_repo commits)) in
  let printed := stdout st ++ diff_messages git args_repo commits in
  main git renderer args_repo args_visualizer args_output st
  = match renderer [args_visualizer; str "-i"; TEMP_MMD; str "-o"; args_output]
            (<[TEMP_MMD := mermaid_graph]> (fs st)) with
    | (Completed _, files') =>
        (Return tt, mkState (printed ++ [MSG_DONE]) (delete TEMP_MMD files'))
    | (Failed msg, files') =>
        (Return tt,
         mkState (printed ++ [MSG_PNG ++ msg; MSG_DONE]) (delete TEMP_MMD files'))
    | (NotStarted msg, files') =>
        (Raise (OSError msg), mkState printed (delete TEMP_MMD files'))
    end.
Proof.
intros Hgit Hlines Hout Hstart commits mermaid_graph printed.
rewrite (main_with_commits git renderer args_repo args_visualizer args_output
           st st commits (get_git_commits_run git args_repo out st Hgit Hlines)).
2:{ unfold commits. intros Hnil%map_eq_nil. by apply splitlines_nil in Hnil. }
rewrite (bind_Return _ _ _ _ _
           (generate_mermaid_graph_run git args_repo commits st Hstart)).
fold mermaid_graph. fold printed.
unfold bind. rewrite generate_png_from_mermaid_run. unfold renderer_run.
cbn [fs stdout].
destruct (renderer _ _) as [[text|msg|msg] files']; cbn [fst snd]; [done| |done].
unfold print. cbn [stdout fs]. by rewrite <- app_assoc.
Qed.

Lemma main_whole_run_witness :
  let git := fun (args : list pystr) (_ : pystr) =>
               if bool_decide (args = git_log_args)
               then Completed (str "abc123 def456" ++ [LF] ++ str "def456 ")
               else if bool_decide (args = git_diff_tree_args (str "def456"))
               then Failed (str "exit status 128")
               else Completed (str "src/main.py" ++ [LF]) in
  let renderer := fun (_ : list pystr) (files : gmap pystr pystr) =>
                    (Failed (str "exit status 1"), files) in
  let commits := [(str "abc123", [str "def456"]); (str "def456", [])] in
  let mermaid_graph :=
    str "graph TD" ++ [LF]
    ++ concat (map render (mermaid_lines git (str "/path/to/repo") commits)) in
  main git renderer (str "/path/to/repo") (str "mmdc") (str "graph.png") st0
  = (Return tt,
     mkState [MSG_DIFF ++ str "def456: exit status 128";
              MSG_PNG ++ str "exit status 1"; MSG_DONE]
       (delete TEMP_MMD (<[TEMP_MMD := mermaid_graph]> ∅))).
Proof.
intros git renderer commits mermaid_graph.
refine (main_whole_run git renderer (str "/path/to/repo") (str "mmdc")
          (str "graph.png") (str "abc123 def456" ++ [LF] ++ str "def456 ") st0
          eq_refl eq_refl _ eq_refl).
discriminate.
Defined.

(** X11. [main] does not catch what [get_git_commits] raises: when the log
    command cannot be started it raises that [OSError], and when the log
    output has an empty or whitespace-only line it raises [IndexError]; in
    both cases nothing is printed, the renderer is not run and the files
    are left as they are. *)
Theorem main_raises_from_get_git_commits `{SetIteration}
    (git : list pystr -> pystr -> completion)
    (renderer : list pystr -> gmap pystr pystr -> completion * gmap pystr pystr)
    (args_repo args_visualizer args_output text : pystr) (st : state) :
  (git git_log_args args_repo = NotStarted text ->
   main git renderer args_repo args_visualizer args_output st
   = (Raise (OSError text), st))
  /\ (git git_log_args args_repo = Completed text ->
      existsb (forallb isspace) (splitlines text) = true ->
      main git renderer args_repo args_visualizer args_output st
      = (Raise (IndexError (str "list index out of range")), st)).
Proof.
split.
- intros Hgit. unfold main.
  by rewrite (bind_Raise _ _ _ _ _
                (get_git_commits_not_started git args_repo text st Hgit)).
- intros Hgit Hblank. unfold main.
  assert (Hlog : get_git_commits git args_repo st
                 = (Raise (IndexError (str "list index out of range")), st)).
  { rewrite (get_git_commits_completed git args_repo text st Hgit).
    unfold try_except. rewrite get_git_commits_loop_blank; [done|].
    apply existsb_exists in Hblank as (line & Hin & Hline).
    apply Exists_exists. exists line. by rewrite list_elem_of_In. }
  by rewrite (bind_Raise _ _ _ _ _ Hlog).
Qed.

Lemma main_raises_from_get_git_commits_witness :
  let renderer := fun (_ : list pystr) (files : gmap pystr pystr) =>
                    (Completed [], <[str "graph.png" := str "PNG"]> files) in
  main (git_const (NotStarted (str "No such file or directory"))) renderer
    (str "/path/to/repo") (str "mmdc") (str "graph.png") st0
  = (Raise (OSError (str "No such file or directory")), st0)
  /\ main (git_const (Completed (str "abc123" ++ [LF; LF] ++ str "def456"))) renderer
       (str "/path/to/repo") (str "mmdc") (str "graph.png") st0
     = (Raise (IndexError (str "list index out of range")), st0).
Proof.
intros renderer. split.
- exact (proj1 (main_raises_from_get_git_commits
                  (git_const (NotStarted (str "No such file or directory")))
                  renderer (str "/path/to/repo") (str "mmdc") (str "graph.png")
                  (str "No such file or directory") st0) eq_refl).
- exact (proj2 (main_raises_from_get_git_commits
                  (git_const (Completed (str "abc123" ++ [LF; LF] ++ str "def456")))
                  renderer (str "/path/to/repo") (str "mmdc") (str "graph.png")
                  (str "abc123" ++ [LF; LF] ++ str "def456") st0) eq_refl eq_refl).
Defined.

(** X12. When the diff query of a commit of the log cannot be started,
    [main] raises that [OSError] before anything is rendered: the scratch
    file is not written, the renderer is not run, the files are left as
    they are, and only the messages of the failed diff queries of the
    commits before are printed. *)
Theorem main_raises_from_get_commit_diff `{SetIteration}
    (git : list pystr -> pystr -> completion)
    (renderer : list pystr -> gmap pystr pystr -> completion * gmap pystr pystr)
    (args_repo args_visualizer args_output out msg : pystr) (st : state)
    (before after : list (pystr * list pystr)) (e : pystr * list pystr) :
  git git_log_args args_repo = Completed out ->
  forallb (fun line => negb (forallb isspace line)) (splitlines out) = true ->
  map commit_of_line (splitlines out) = before ++ e :: after ->
  diff_starts git args_repo before = true ->
  git (git_diff_tree_args e.1) args_repo = NotStarted msg ->
  main git renderer args_repo args_visualizer args_output st
  = (Raise (OSError msg),
     mkState (stdout st ++ diff_messages git args_repo before) (fs st)).
Proof.
intros Hgit Hlines Hcommits Hstart Hdiff.
rewrite (main_with_commits git renderer args_repo args_visualizer args_output
           st st (before ++ e :: after)).
- by rewrite (bind_Raise _ _ _ _ _
                (generate_mermaid_graph_raise git args_repo before e after msg st
                   Hstart Hdiff)).
- rewrite <- Hcommits. by apply get_git_commits_run.
- by destruct before.
Qed.

Lemma main_raises_from_get_commit_diff_witness :
  let git := fun (args : list pystr) (_ : pystr) =>
               if bool_decide (args = git_log_args)
               then Completed (str "abc123 def456" ++ [LF] ++ str "def456 ")
               else if bool_decide (args = git_diff_tree_args (str "def456"))
               then NotStarted (str "No such file or directory")
               else Failed (str "exit status 128") in
  let renderer := fun (_ : list pystr) (files : gmap pystr pystr) =>
                    (Completed [], <[str "graph.png" := str "PNG"]> files) in
  main git renderer (str "/path/to/repo") (str "mmdc") (str "graph.png") st0
  = (Raise (OSError (str "No such file or directory")),
     mkState [MSG_DIFF ++ str "abc123: exit status 128"] ∅).
Proof.
intros git renderer.
exact (main_raises_from_get_commit_diff git renderer (str "/path/to/repo")
         (str "mmdc") (str "graph.png")
         (str "abc123 def456" ++ [LF] ++ str "def456 ")
         (str "No such file or directory") st0
         [(str "abc123", [str "def456"])] [] (str "def456", [])
         eq_refl eq_refl eq_refl eq_refl eq_refl).
Defined.
